(** * Food portal: plan / order accounting

    A shallow embedding of the plan and order accounting code of the portal:
    the customer view ([UserPortal.js]: cart, checkout, renewal request,
    and the owner helpers it carries), the owner view ([Owner.js]: payment
    and order approval) and the stand-alone helpers of [functions.js].

    Conventions of the embedding.
    - JavaScript numbers that the code handles are integers (quantities,
      prices in rupees, meal counters, millisecond time stamps); they are
      modelled in [Z], with no rounding and no NaN.
    - A Firestore document field that is absent, [undefined] or [null] is
      [None]; the code reads such fields only through [?.], [??], [||] and
      truthiness tests, which do not tell the three apart.
    - A JavaScript object used as a dictionary (the cart, a Firestore
      collection keyed by document id) is a [gmap]; [Object.entries] is
      [map_to_list], which lists the same entries in an order of its own
      (the code only sums over them).
    - Each handler returns the alert it raises next to the state it leaves.
      Failures of the store itself (network errors reaching a [catch]) are
      not modelled, except the failure of [updateDoc] on a document that
      does not exist. *)

From Stdlib Require Import ZArith Lia.
From stdpp Require Import gmap strings list fin_maps.

Local Open Scope Z_scope.

(** ** Data model *)

Record MenuItem := {
  m_id : string;
  m_name : string;
  m_category : string;
  m_price : Z;
  m_calories : Z
}.

Definition MENU : list MenuItem := [
  {| m_id := "mix-veg-sandwich"; m_name := "Mix Veg Sandwich"; m_category := "Sandwich"; m_price := 65; m_calories := 340 |};
  {| m_id := "tofu-sandwich"; m_name := "Tofu Sandwich"; m_category := "Sandwich"; m_price := 85; m_calories := 380 |};
  {| m_id := "paneer-sandwich"; m_name := "Paneer Sandwich"; m_category := "Sandwich"; m_price := 95; m_calories := 490 |};
  {| m_id := "avocado-grill"; m_name := "Avocado Grill Sandwich"; m_category := "Sandwich"; m_price := 95; m_calories := 330 |};
  {| m_id := "date-almond"; m_name := "Date Almond Energizer"; m_category := "Smoothie"; m_price := 85; m_calories := 380 |};
  {| m_id := "melon-mint"; m_name := "Melon Mint Cooler"; m_category := "Smoothie"; m_price := 75; m_calories := 150 |};
  {| m_id := "beet-berry"; m_name := "Beet Berry Power"; m_category := "Smoothie"; m_price := 85; m_calories := 230 |};
  {| m_id := "berrylicious"; m_name := "Berrylicious Glow"; m_category := "Smoothie"; m_price := 95; m_calories := 210 |};
  {| m_id := "tropical-oats"; m_name := "Tropical Fruit & Honey Oats"; m_category := "Oats Bowl"; m_price := 85; m_calories := 545 |};
  {| m_id := "dark-choco-oats"; m_name := "Dark Chocolate Oats"; m_category := "Oats Bowl"; m_price := 95; m_calories := 575 |};
  {| m_id := "coffee-oats"; m_name := "Coffee Flavoured Oats"; m_category := "Oats Bowl"; m_price := 105; m_calories := 555 |};
  {| m_id := "peanut-cucumber"; m_name := "Peanut Cucumber"; m_category := "Salad"; m_price := 95; m_calories := 440 |};
  {| m_id := "black-chana"; m_name := "Black Chana Salad"; m_category := "Salad"; m_price := 75; m_calories := 360 |};
  {| m_id := "soya-chunk"; m_name := "Soya Chunk Power Bowl"; m_category := "Salad"; m_price := 95; m_calories := 400 |};
  {| m_id := "avocado-tomato"; m_name := "Avocado Tomato"; m_category := "Salad"; m_price := 115; m_calories := 460 |}
].

Definition PER_ITEM_MAX : Z := 5.
Definition PLAN_CAPACITY : Z := 30.

(** One line of an order, as [handleCheckout] writes it. *)
Record Item := {
  it_id : string;
  it_name : string;
  quantity : Z;
  price : Z
}.

Inductive Status := pending | approved | cancelled.

(** A document of the [Orders] collection.  [date] is [None] while the
    server time stamp of a fresh order is still pending in the local
    snapshot. *)
Record Order := {
  userID : string;
  items : list Item;
  totalQty : Z;
  totalPrice : Z;
  status : Status;
  isExtraOrder : bool;
  date : option Z;
  approvedAt : option Z
}.

(** The [plan] map of a user document, with every field that the
    repository writes to it.  Dates are millisecond time stamps. *)
Record Plan := {
  paid : option bool;
  paymentSubmitted : option bool;
  totalMeals : option Z;
  mealsRemaining : option Z;
  startDate : option Z;
  endDate : option Z;
  receiptBase64 : option string;
  receiptName : option string;
  uploadedAt : option Z;
  paymentApprovedAt : option Z;
  planPrice : option Z;
  mealsLimit : option Z;
  chaiLimit : option Z;
  chaiRemaining : option Z
}.

(** A user document.  A document without a [plan] map reads like one whose
    plan has no field, so [plan] is total. *)
Record User := {
  plan : Plan;
  paymentStatus : option string
}.

(** A document of the collection ["Users"], the one that [functions.js]
    addresses.  No other module reads or writes that collection: the
    customer records above live in ["users"].  Its plan holds the two
    counters that [functions.js] decrements. *)
Record LegacyPlan := {
  legacyMealsRemaining : Z;
  legacyChaiRemaining : Z
}.

Record LegacyUser := {
  legacyPlan : LegacyPlan
}.

(** The three collections.  A key of a collection is a document id, which
    Firestore wants non-empty. *)
Record Store := {
  users : gmap string User;
  Orders : gmap string Order;
  Users : gmap string LegacyUser
}.

(** The alerts raised by the handlers, one constructor per message. *)
Inductive Alert :=
| PlanCapacityReached      (* "Plan capacity reached. Please renew your plan to order more." *)
| ItemMaxedForPlan         (* "This item is maxed for your current plan." *)
| ExceedsPlanCapacity      (* "Adding this will exceed your plan capacity. ..." *)
| ProfileNotLoaded         (* "Profile not loaded." *)
| CartIsEmpty              (* "Cart is empty." *)
| OrderPlaced              (* "Order placed successfully ..." *)
| RenewalRequestSent       (* "Plan renewal request sent. Please complete payment." *)
| RenewalRequestFailed     (* "Failed to request plan renewal." *)
| PlanActivated            (* "Plan activated for user." / "Payment approved and plan activated." *)
| ActivationFailed         (* "Failed to activate plan." / "Payment approval failed." *)
| OrderNotFound            (* "Order not found." *)
| OrderApproved            (* "Order approved." *)
| ApproveOrderFailed.      (* "Failed to approve order." / "Approve order failed." *)

(** Sum of the quantities of the lines of an order:
    [items.reduce((s, it) => s + (it.quantity || 0), 0)].  On an integer
    [x || 0] is [x]. *)
Definition sumQty (its : list Item) : Z :=
  fold_left (fun s it => s + quantity it) its 0.

(** ** UserPortal.js: values derived at each render *)

Section UserPortal.
Variable profile : option User.
Variable orders : list Order.
(** [new Date()] where the code falls back on it. *)
Variable now : Z.

Definition planStart : option Z :=
  match profile with Some u => startDate (plan u) | None => None end.

Definition planEnd : option Z :=
  match profile with Some u => endDate (plan u) | None => None end.

Definition planPaid : bool :=
  match profile with Some u => default false (paid (plan u)) | None => false end.

Definition oDate (o : Order) : Z := default now (date o).

Definition userPlanOrders : list Order :=
  match planPaid, planStart, planEnd with
  | true, Some s, Some e =>
      List.filter
        (fun o => if isExtraOrder o then false
                  else (s <=? oDate o) && (oDate o <=? e))
        orders
  | _, _, _ => []
  end.

Definition planUsedCount : Z :=
  fold_left (fun s o => s + sumQty (items o)) userPlanOrders 0.

Definition planRemaining : Z := Z.max 0 (PLAN_CAPACITY - planUsedCount).

(** Number of lines of plan orders that carry each item id. *)
Definition itemPlanCounts : gmap string Z :=
  fold_left
    (fun map o =>
       fold_left
         (fun map it => <[it_id it := default 0 (map !! it_id it) + 1]> map)
         (items o) map)
    userPlanOrders ∅.

(** *** Cart helpers *)

Definition cartTotalQty (cart : gmap string Z) : Z :=
  fold_left (fun s n => s + n) (snd <$> map_to_list cart) 0.

Definition addToCart (cart : gmap string Z) (itemId : string)
  : option Alert * gmap string Z :=
  let add := (None, <[itemId := default 0 (cart !! itemId) + 1]> cart) in
  if planPaid then
    if planRemaining <=? 0 then (Some PlanCapacityReached, cart)
    else
      let occ := default 0 (itemPlanCounts !! itemId) in
      if occ >=? PER_ITEM_MAX then (Some ItemMaxedForPlan, cart)
      else if cartTotalQty cart + 1 >? planRemaining
           then (Some ExceedsPlanCapacity, cart)
           else add
  else add.

Definition removeFromCart (cart : gmap string Z) (itemId : string)
  : gmap string Z :=
  match cart !! itemId with
  | None => cart
  | Some n =>
      if n =? 0 then cart
      else
        let n' := Z.max 0 (n - 1) in
        if n' =? 0 then delete itemId cart else <[itemId := n']> cart
  end.

Definition setCartQty (cart : gmap string Z) (itemId : string) (qty : Z)
  : gmap string Z :=
  let q := Z.max 0 (Z.min 10 qty) in
  <[itemId := q]> cart.

Definition clearCart : gmap string Z := ∅.

(** *** Checkout *)

Definition menuMeta (id : string) : string * Z :=
  match List.find (fun m => String.eqb (m_id m) id) MENU with
  | Some m => (m_name m, m_price m)
  | None => (id, 0)
  end.

Definition cartItems (cart : gmap string Z) : list Item :=
  (fun e : string * Z =>
     {| it_id := e.1; it_name := (menuMeta e.1).1;
        quantity := e.2; price := (menuMeta e.1).2 |})
  <$> map_to_list cart.

(** The alert raised, the order document added to [Orders] (if any) and
    the cart after the call.  [stamp] is the server time stamp. *)
Definition handleCheckout (uid : string) (stamp : Z) (cart : gmap string Z)
  : Alert * option Order * gmap string Z :=
  match profile with
  | None => (ProfileNotLoaded, None, cart)
  | Some _ =>
      let its := cartItems cart in
      match its with
      | [] => (CartIsEmpty, None, cart)
      | _ =>
          let tq := fold_left (fun s it => s + quantity it) its 0 in
          let tp := fold_left (fun s it => s + quantity it * price it) its 0 in
          let extra :=
            if planPaid then (if tq <=? planRemaining then false else true)
            else true in
          (OrderPlaced,
           Some {| userID := uid; items := its; totalQty := tq;
                   totalPrice := tp; status := pending;
                   isExtraOrder := extra; date := Some stamp;
                   approvedAt := None |},
           clearCart)
      end
  end.

End UserPortal.

(** ** Handlers that write to the store

    *** Dates: [new Date(d)] followed by [d.setDate(d.getDate() + 30)]

    ECMAScript computes both in local time.  The host supplies the offset
    of the local zone, [LocalTZA(t, isUTC)]: the offset in force at the
    instant [t] when [isUTC] is true, at the local time [t] otherwise (it
    changes where the zone has daylight saving time), and the calendar, of
    which only the day number of the first day of a month matters. *)

Section Handlers.
Variable LocalTZA : Z -> bool -> Z.
(** Day number of the first day of the month that contains a day. *)
Variable monthStartDay : Z -> Z.

Definition msPerDay : Z := 86400000.
Definition LocalTime (t : Z) : Z := t + LocalTZA t true.
Definition UTC (t : Z) : Z := t - LocalTZA t false.
Definition Day (t : Z) : Z := t / msPerDay.
Definition TimeWithinDay (t : Z) : Z := t mod msPerDay.

(** [DateFromTime]: day of the month, from 1. *)
Definition DateFromTime (t : Z) : Z := Day t - monthStartDay (Day t) + 1.

(** [MakeDay(YearFromTime(t), MonthFromTime(t), dt)]: the day [dt] of the
    month of [t], where [dt] may run past the end of the month. *)
Definition MakeDay (t dt : Z) : Z := monthStartDay (Day t) + dt - 1.

Definition MakeDate (day time : Z) : Z := day * msPerDay + time.

Definition getDate (d : Z) : Z := DateFromTime (LocalTime d).

Definition setDate (d dt : Z) : Z :=
  let t := LocalTime d in
  UTC (MakeDate (MakeDay t dt) (TimeWithinDay t)).

(** [const ed = new Date(sd); ed.setDate(ed.getDate() + 30);] *)
Definition plus30Days (sd : Z) : Z :=
  let ed := sd in
  setDate ed (getDate ed + 30).

(** ** Plan field updates, [updateDoc(ref, { "plan.f": v, ... })] *)

(** UserPortal.js, [handleRenewPlan]. *)
Definition renewPlanFields (p : Plan) : Plan :=
  {| paid := Some false;
     paymentSubmitted := Some true;
     totalMeals := totalMeals p;
     mealsRemaining := Some 0;
     startDate := None;
     endDate := None;
     receiptBase64 := receiptBase64 p;
     receiptName := receiptName p;
     uploadedAt := uploadedAt p;
     paymentApprovedAt := paymentApprovedAt p;
     planPrice := planPrice p;
     mealsLimit := mealsLimit p;
     chaiLimit := chaiLimit p;
     chaiRemaining := chaiRemaining p |}.

(** UserPortal.js, [ownerApprovePlan]. *)
Definition activatePlanFields (sd : Z) (p : Plan) : Plan :=
  {| paid := Some true;
     paymentSubmitted := Some false;
     totalMeals := Some PLAN_CAPACITY;
     mealsRemaining := Some PLAN_CAPACITY;
     startDate := Some sd;
     endDate := Some (plus30Days sd);
     receiptBase64 := receiptBase64 p;
     receiptName := receiptName p;
     uploadedAt := uploadedAt p;
     paymentApprovedAt := paymentApprovedAt p;
     planPrice := planPrice p;
     mealsLimit := mealsLimit p;
     chaiLimit := chaiLimit p;
     chaiRemaining := chaiRemaining p |}.

(** [s || null] on a string field: the empty string is falsy. *)
Definition orNull (s : option string) : option string :=
  match s with
  | Some x => if String.eqb x "" then None else Some x
  | None => None
  end.

(** Owner.js, [approvePayment]: the receipt fields are copied from the
    [user] object of the snapshot, the others are as above. *)
Definition approvePaymentFields (snap : Plan) (start stamp : Z) (p : Plan) : Plan :=
  {| paid := Some true;
     paymentSubmitted := Some false;
     totalMeals := Some 30;
     mealsRemaining := Some 30;
     startDate := Some start;
     endDate := Some (plus30Days start);
     receiptBase64 := orNull (receiptBase64 snap);
     receiptName := orNull (receiptName snap);
     uploadedAt := uploadedAt p;
     paymentApprovedAt := Some stamp;
     planPrice := planPrice p;
     mealsLimit := mealsLimit p;
     chaiLimit := chaiLimit p;
     chaiRemaining := chaiRemaining p |}.

Definition setMealsRemaining (v : Z) (p : Plan) : Plan :=
  {| paid := paid p;
     paymentSubmitted := paymentSubmitted p;
     totalMeals := totalMeals p;
     mealsRemaining := Some v;
     startDate := startDate p;
     endDate := endDate p;
     receiptBase64 := receiptBase64 p;
     receiptName := receiptName p;
     uploadedAt := uploadedAt p;
     paymentApprovedAt := paymentApprovedAt p;
     planPrice := planPrice p;
     mealsLimit := mealsLimit p;
     chaiLimit := chaiLimit p;
     chaiRemaining := chaiRemaining p |}.

Definition withPlan (f : Plan -> Plan) (u : User) : User :=
  {| plan := f (plan u); paymentStatus := paymentStatus u |}.

Definition setStatusApproved (stamp : option Z) (o : Order) : Order :=
  {| userID := userID o; items := items o; totalQty := totalQty o;
     totalPrice := totalPrice o; status := approved;
     isExtraOrder := isExtraOrder o; date := date o;
     approvedAt := match stamp with Some t => Some t | None => approvedAt o end |}.

(** ** UserPortal.js: handlers that write to the store *)

(** [updateDoc] rejects when the user document does not exist. *)
Definition handleRenewPlan (st : Store) (uid : string) : Alert * Store :=
  match users st !! uid with
  | None => (RenewalRequestFailed, st)
  | Some u =>
      (RenewalRequestSent,
       {| users := <[uid := withPlan renewPlanFields u]> (users st);
          Orders := Orders st; Users := Users st |})
  end.

Definition ownerApprovePlan (st : Store) (userDocId : string) (sd : Z)
  : Alert * Store :=
  match users st !! userDocId with
  | None => (ActivationFailed, st)
  | Some u =>
      (PlanActivated,
       {| users := <[userDocId := withPlan (activatePlanFields sd) u]> (users st);
          Orders := Orders st; Users := Users st |})
  end.

(** The decrement both approval handlers apply to the owner of a plan
    order: [Math.max(0, (plan.mealsRemaining ?? 30) - qty)]. *)
Definition decrementMeals (dflt : Z) (its : list Item) (p : Plan) : Plan :=
  let currRem := default dflt (mealsRemaining p) in
  let qty := sumQty its in
  let after := Z.max 0 (currRem - qty) in
  setMealsRemaining after p.

Definition ownerApproveOrder (st : Store) (orderId : string) : Alert * Store :=
  match Orders st !! orderId with
  | None => (OrderNotFound, st)
  | Some orderData =>
      let st1 :=
        {| users := users st;
           Orders := <[orderId := setStatusApproved None orderData]> (Orders st);
           Users := Users st |} in
      if isExtraOrder orderData then (OrderApproved, st1)
      else if String.eqb (userID orderData) ""
      then (* doc(db, "users", "") throws: no document has an empty id *)
        (ApproveOrderFailed, st1)
      else
        match users st1 !! userID orderData with
        | None => (OrderApproved, st1)
        | Some user =>
            (OrderApproved,
             {| users :=
                  <[userID orderData :=
                      withPlan (decrementMeals PLAN_CAPACITY (items orderData)) user]>
                    (users st1);
                Orders := Orders st1; Users := Users st1 |})
        end
  end.

(** ** Owner.js *)

Definition approvePayment (st : Store) (uid : string) (user : User)
    (start stamp : Z) : Alert * Store :=
  match users st !! uid with
  | None => (ActivationFailed, st)
  | Some u =>
      (PlanActivated,
       {| users :=
            <[uid := {| plan := approvePaymentFields (plan user) start stamp (plan u);
                        paymentStatus := Some "approved" |}]> (users st);
          Orders := Orders st; Users := Users st |})
  end.

(** [order] is the object of the owner's snapshot, [oid] its id: the flag,
    the owner and the lines are read from it, not from the store. *)
Definition approveOrder (st : Store) (oid : string) (order : Order) (stamp : Z)
  : Alert * Store :=
  match Orders st !! oid with
  | None => (ApproveOrderFailed, st)
  | Some stored =>
      let st1 :=
        {| users := users st;
           Orders := <[oid := setStatusApproved (Some stamp) stored]> (Orders st);
           Users := Users st |} in
      if negb (isExtraOrder order) && negb (String.eqb (userID order) "") then
        match users st1 !! userID order with
        | None => (OrderApproved, st1)
        | Some userData =>
            (OrderApproved,
             {| users :=
                  <[userID order :=
                      withPlan (decrementMeals 30 (items order)) userData]>
                    (users st1);
                Orders := Orders st1; Users := Users st1 |})
        end
      else (OrderApproved, st1)
  end.

(** ** The owner's Approve buttons

    Both owner views render the button of an order only while the status
    they list for it is not ["approved"].  The listing is the state that
    the last snapshot of ["Orders"] left in the view, by order id: it may
    lag behind the store.  Neither the cut to the thirty latest orders of
    the owner panel nor the customer filter of the orders tab is modelled.
    A click on an order without button does nothing. *)

(** UserPortal.js, [OwnerPanel], over [allOrders]:
    [o.status !== "approved" && <button onClick={() => ownerApproveOrder(o.id)}>]. *)
Definition ownerPanelApprove (st : Store) (allOrders : gmap string Order)
    (oid : string) : Store :=
  match allOrders !! oid with
  | Some o =>
      match status o with
      | approved => st
      | _ => (ownerApproveOrder st oid).2
      end
  | None => st
  end.

(** Owner.js, [OrdersTab], over [orders]: the list [pending] keeps the
    orders with [o.status !== "approved"], each with a button on
    [approveOrder(o)], [o] being the listed object. *)
Definition ordersTabApprove (st : Store) (orders : gmap string Order)
    (oid : string) (stamp : Z) : Store :=
  match orders !! oid with
  | Some o =>
      match status o with
      | approved => st
      | _ => (approveOrder st oid o stamp).2
      end
  | None => st
  end.

End Handlers.

(** ** functions.js *)

Module Functions.

(** [calculatePrice].  The factor is the double [1.2]; the product is
    taken in tenths of a rupee here, so the result is [calculatePrice / 10]
    up to the rounding of the double product. *)
Definition calculatePriceTenths (items : list Item) (isExtra : bool) : Z :=
  let price :=
    fold_left
      (fun price item =>
         price + (if String.eqb (it_name item) "Healthy Meal" then 40 else 10)
                 * quantity item)
      items 0 in
  if isExtra then price * 12 else price * 10.

(** The body of the [forEach] of [approveOrder], on one line of the
    order. *)
Definition decrementLine (p : LegacyPlan) (item : Item) : LegacyPlan :=
  let p1 :=
    if String.eqb (it_name item) "Healthy Meal"
    then {| legacyMealsRemaining := legacyMealsRemaining p - quantity item;
            legacyChaiRemaining := legacyChaiRemaining p |}
    else p in
  if String.eqb (it_name item) "Chai"
  then {| legacyMealsRemaining := legacyMealsRemaining p1;
          legacyChaiRemaining := legacyChaiRemaining p1 - quantity item |}
  else p1.

(** How the promise of an [async] helper settles, and the store it leaves. *)
Inductive Outcome :=
| Resolved (st : Store)
| Rejected (st : Store).

Definition storeOf (r : Outcome) : Store :=
  match r with Resolved st | Rejected st => st end.

(** [approveOrder(orderID, userID, items)].  [updateDoc] rejects on a
    missing order; on a missing document of ["Users"] the order is already
    marked and [userData.plan] throws. *)
Definition approveOrder (st : Store) (orderID userID : string) (items : list Item)
  : Outcome :=
  match Orders st !! orderID with
  | None => Rejected st
  | Some order =>
      let st1 :=
        {| users := users st;
           Orders := <[orderID := setStatusApproved None order]> (Orders st);
           Users := Users st |} in
      match Users st1 !! userID with
      | None => Rejected st1
      | Some userData =>
          let plan' := fold_left decrementLine items (legacyPlan userData) in
          Resolved
            {| users := users st1;
               Orders := Orders st1;
               Users := <[userID := {| legacyPlan := plan' |}]> (Users st1) |}
      end
  end.

End Functions.

(** ** Sequences of plan and order operations

    The payment approvals, the order approvals of the three files and the
    renewal request. *)

Inductive Op :=
| OpApprovePayment (uid : string) (user : User) (start stamp : Z)
| OpOwnerApprovePlan (userDocId : string) (sd : Z)
| OpApproveOrder (oid : string) (order : Order) (stamp : Z)
| OpOwnerApproveOrder (orderId : string)
| OpFunctionsApproveOrder (orderID userID : string) (items : list Item)
| OpRenewPlan (uid : string).

Section Sequences.
Variable LocalTZA : Z -> bool -> Z.
Variable monthStartDay : Z -> Z.

Definition step (st : Store) (op : Op) : Store :=
  match op with
  | OpApprovePayment uid user start stamp =>
      (approvePayment LocalTZA monthStartDay st uid user start stamp).2
  | OpOwnerApprovePlan userDocId sd =>
      (ownerApprovePlan LocalTZA monthStartDay st userDocId sd).2
  | OpApproveOrder oid order stamp => (approveOrder st oid order stamp).2
  | OpOwnerApproveOrder orderId => (ownerApproveOrder st orderId).2
  | OpFunctionsApproveOrder orderID userID items =>
      Functions.storeOf (Functions.approveOrder st orderID userID items)
  | OpRenewPlan uid => (handleRenewPlan st uid).2
  end.

Definition run (st : Store) (ops : list Op) : Store := fold_left step ops st.

End Sequences.

(** ** Definitions that follow the specification's words

    They are compared with the code below; the code does not use them. *)

(** Section 4.1 and scenario A: the lines' total, times 1.2 and rounded
    ([Math.round], half up) for an extra order. *)
Definition specPrice (its : list Item) (isExtra : bool) : Z :=
  let total := foldr (fun it s => price it * quantity it + s) 0 its in
  if isExtra then (total * 12 + 5) / 10 else total.

(** Section 3: a plan is active iff paid and [endDate >= now]. *)
Definition specActive (p : Plan) (now : Z) : bool :=
  default false (paid p) &&
  match endDate p with Some e => now <=? e | None => false end.

(** Section 3: [0 <= mealsRemaining <= totalMeals]. *)
Definition planInvariant (p : Plan) : Prop :=
  exists r t, mealsRemaining p = Some r /\ totalMeals p = Some t /\ 0 <= r <= t.

(** Claim on the capacity that gates the cart: the summed item quantities
    of the non-extra orders, whatever their status, whose date falls within
    the window [[s, e]]. *)
Fixpoint windowUsed (s e now : Z) (orders : list Order) : Z :=
  match orders with
  | [] => 0
  | o :: rest =>
      (if negb (isExtraOrder o) && (s <=? default now (date o))
          && (default now (date o) <=? e)
       then sumQty (items o) else 0)
      + windowUsed s e now rest
  end.

(** The same capacity written out on the lines, as the claim words it: 30
    minus the quantities of the lines of the orders that count, with no
    floor at 0. *)
Fixpoint unitsOf (its : list Item) : Z :=
  match its with
  | [] => 0
  | it :: rest => quantity it + unitsOf rest
  end.

Definition countsInWindow (s e now : Z) (o : Order) : bool :=
  negb (isExtraOrder o)
  && (s <=? default now (date o)) && (default now (date o) <=? e).

Fixpoint gateCapacity (s e now : Z) (orders : list Order) : Z :=
  match orders with
  | [] => 30
  | o :: rest =>
      gateCapacity s e now rest
      - (if countsInWindow s e now o then unitsOf (items o) else 0)
  end.

(** Quantities are never negative on the lines that checkout writes. *)
Definition linesOk (its : list Item) : Prop :=
  Forall (fun it => 0 <= quantity it) its.

Definition opOk (op : Op) : Prop :=
  match op with
  | OpApproveOrder _ order _ => linesOk (items order)
  | _ => True
  end.

(** The plan of the customer [uid] satisfies the invariant. *)
Definition holdsFor (st : Store) (uid : string) : Prop :=
  exists u, users st !! uid = Some u /\ planInvariant (plan u).

Definition ordersOk (st : Store) : Prop :=
  map_Forall (fun _ o => linesOk (items o)) (Orders st).

(** The stored balance of a user. *)
Definition mealsOf (st : Store) (uid : string) : option Z :=
  u ← users st !! uid; mealsRemaining (plan u).

(** The balance of a document of ["Users"], the collection of
    functions.js. *)
Definition legacyMealsOf (st : Store) (uid : string) : option Z :=
  ud ← Users st !! uid; Some (legacyMealsRemaining (legacyPlan ud)).

Definition cartOk (cart : gmap string Z) : Prop :=
  map_Forall (fun _ n => 0 <= n) cart.

(** ** Sample documents used in the examples below *)

Definition noPlan : Plan :=
  {| paid := None; paymentSubmitted := None; totalMeals := None;
     mealsRemaining := None; startDate := None; endDate := None;
     receiptBase64 := None; receiptName := None; uploadedAt := None;
     paymentApprovedAt := None; planPrice := None; mealsLimit := None;
     chaiLimit := None; chaiRemaining := None |}.

(** A plan as payment approval leaves it, with [r] meals left and the
    window [[s, e]]. *)
Definition paidPlan (s e r : Z) : Plan :=
  {| paid := Some true; paymentSubmitted := Some false; totalMeals := Some 30;
     mealsRemaining := Some r; startDate := Some s; endDate := Some e;
     receiptBase64 := None; receiptName := None; uploadedAt := None;
     paymentApprovedAt := None; planPrice := None; mealsLimit := None;
     chaiLimit := None; chaiRemaining := None |}.

Definition userWith (p : Plan) : User :=
  {| plan := p; paymentStatus := Some "approved" |}.

Definition line (id : string) (q : Z) : Item :=
  {| it_id := id; it_name := (menuMeta id).1; quantity := q;
     price := (menuMeta id).2 |}.

(** An order of user ["u1"] as [handleCheckout] writes it. *)
Definition orderOf (its : list Item) (extra : bool) (st : Status) (d : Z) : Order :=
  {| userID := "u1"; items := its; totalQty := sumQty its;
     totalPrice := foldr (fun it s => price it * quantity it + s) 0 its;
     status := st; isExtraOrder := extra; date := Some d; approvedAt := None |}.

(** Scenario C: a plan of 30 meals and a pending plan order of 5 units. *)
Definition scenarioC : Store :=
  {| users := {[ "u1" := userWith (paidPlan 0 100 30) ]};
     Orders := {[ "o1" := orderOf [line "paneer-sandwich" 2; line "melon-mint" 3]
                            false pending 10 ]};
     Users := ∅ |}.

(** Scenario C with the order cancelled by the owner. *)
Definition scenarioCancelled : Store :=
  {| users := {[ "u1" := userWith (paidPlan 0 100 30) ]};
     Orders := {[ "o1" := orderOf [line "paneer-sandwich" 2; line "melon-mint" 3]
                            false cancelled 10 ]};
     Users := ∅ |}.

(** A store for [functions.js]: a document of ["Users"] with one meal
    left, and an order in the vocabulary of that file. *)
Definition healthyMeals (q : Z) : list Item :=
  [{| it_id := "healthy-meal"; it_name := "Healthy Meal"; quantity := q;
      price := 40 |}].

Definition legacyStore : Store :=
  {| users := {[ "u1" := userWith (paidPlan 0 100 1) ]};
     Orders := {[ "o1" := orderOf (healthyMeals 2) false pending 10 ]};
     Users := {[ "u1" := {| legacyPlan := {| legacyMealsRemaining := 1;
                                              legacyChaiRemaining := 12 |} |} ]} |}.

(** A host for the examples: Indian Standard Time, which has no daylight
    saving time, and a calendar of 30-day months. *)
Definition IST (t : Z) (isUTC : bool) : Z := 19800000.
Definition thirtyDayMonths (d : Z) : Z := d - d mod 30.

(** A host in New York around the end of daylight saving time of 2026, on
    1 November at 06:00 UTC, 02:00 of the local clock before the change:
    the offset is -4 h before and -5 h from then on.  The calendar gives the
    first days of October, November and December 2026 (days 20727, 20758
    and 20788 since the epoch). *)
Definition newYorkAutumn2026 (t : Z) (isUTC : bool) : Z :=
  if isUTC
  then (if t <? 1793512800000 then -14400000 else -18000000)
  else (if t <? 1793498400000 then -14400000 else -18000000).

Definition lastQuarter2026 (d : Z) : Z :=
  if d <? 20758 then 20727 else if d <? 20788 then 20758 else 20788.

(** ** UserPortal.js: the catalog card and the cart box *)

Section UserPortalViews.
Variable profile : option User.
Variable orders : list Order.
Variable now : Z.

(** [Catalog]: the flags that disable the Add button of a card. *)
Definition availablePlanCapacity : Z :=
  Z.max 0 (PLAN_CAPACITY - planUsedCount profile orders now).

Definition itemMaxed (itemId : string) : bool :=
  planPaid profile
  && (default 0 (itemPlanCounts profile orders now !! itemId) >=? PER_ITEM_MAX).

Definition planFull : bool :=
  planPaid profile && (availablePlanCapacity <=? 0).

Definition disableAdd (itemId : string) : bool :=
  itemMaxed itemId || planFull.

(** [CartBox]: the two buttons of a row; a row exists for each entry of
    the cart, with [it.qty] the quantity of the entry. *)
Definition cartBoxMinus (cart : gmap string Z) (itemId : string) : gmap string Z :=
  match cart !! itemId with
  | Some qty => setCartQty cart itemId (Z.max 0 (qty - 1))
  | None => cart
  end.

Definition cartBoxPlus (cart : gmap string Z) (itemId : string) : gmap string Z :=
  match cart !! itemId with
  | Some qty => setCartQty cart itemId (Z.min 10 (qty + 1))
  | None => cart
  end.

End UserPortalViews.

(** The buttons of a catalog card, in sequence.  The cart is state of the
    component and lives on from one render to the next, while the profile
    and the orders are those of the render on which the click falls: each
    click carries its own. *)
Record Render := {
  r_profile : option User;
  r_orders : list Order;
  r_now : Z
}.

Inductive CartOp :=
| CartAdd (itemId : string)
| CartRemove (itemId : string).

Definition cartStep (cart : gmap string Z) (click : Render * CartOp)
  : gmap string Z :=
  match click.2 with
  | CartAdd itemId =>
      (addToCart (r_profile click.1) (r_orders click.1) (r_now click.1)
         cart itemId).2
  | CartRemove itemId => removeFromCart cart itemId
  end.

Definition cartRun (cart : gmap string Z) (clicks : list (Render * CartOp))
  : gmap string Z :=
  fold_left cartStep clicks cart.

(** What a click on Add asks of its render for the cart to stay within a
    capacity [cap]: a paid plan that leaves no more than [cap]. *)
Definition clickWithin (cap : Z) (click : Render * CartOp) : Prop :=
  match click.2 with
  | CartAdd _ =>
      planPaid (r_profile click.1) = true
      /\ planRemaining (r_profile click.1) (r_orders click.1) (r_now click.1)
         <= cap
  | CartRemove _ => True
  end.

(** The messages of the handlers below, one constructor per message. *)
Inductive Notice :=
| SelectImageFirst         (* "Select an image first!" *)
| ReceiptSubmitted         (* "Receipt submitted. Waiting for owner approval." *)
| ReceiptSubmitFailed      (* "Failed to submit receipt." *)
| OrderCancelled           (* "Order cancelled." *)
| CancelFailed             (* "Failed to cancel." *)
| RenewFlagSet             (* "Renew flag set ..." *)
| RenewFlagFailed.         (* "Failed to set renew flag." *)

(** UserPortal.js, [handleUploadReceipt]: the four plan fields it writes.
    [receiptFile] is the selected file, its name and its data URL. *)
Definition uploadReceiptFields (base64 name : string) (stamp : Z) (p : Plan) : Plan :=
  {| paid := paid p;
     paymentSubmitted := Some true;
     totalMeals := totalMeals p;
     mealsRemaining := mealsRemaining p;
     startDate := startDate p;
     endDate := endDate p;
     receiptBase64 := Some base64;
     receiptName := Some name;
     uploadedAt := Some stamp;
     paymentApprovedAt := paymentApprovedAt p;
     planPrice := planPrice p;
     mealsLimit := mealsLimit p;
     chaiLimit := chaiLimit p;
     chaiRemaining := chaiRemaining p |}.

Definition handleUploadReceipt (st : Store) (userID : string)
    (receiptFile : option (string * string)) (stamp : Z) : Notice * Store :=
  match receiptFile with
  | None => (SelectImageFirst, st)
  | Some (name, base64) =>
      match users st !! userID with
      | None => (ReceiptSubmitFailed, st)
      | Some u =>
          (ReceiptSubmitted,
           {| users := <[userID := withPlan (uploadReceiptFields base64 name stamp) u]>
                         (users st);
              Orders := Orders st; Users := Users st |})
      end
  end.

(** ** Owner.js: the lists and labels of the owner view *)

(** The Cancel button of a pending order:
    [updateDoc(doc(db, "Orders", o.id), { status: "cancelled" })]. *)
Definition setStatusCancelled (o : Order) : Order :=
  {| userID := userID o; items := items o; totalQty := totalQty o;
     totalPrice := totalPrice o; status := cancelled;
     isExtraOrder := isExtraOrder o; date := date o;
     approvedAt := approvedAt o |}.

Definition cancelOrder (st : Store) (oid : string) : Notice * Store :=
  match Orders st !! oid with
  | None => (CancelFailed, st)
  | Some o =>
      (OrderCancelled,
       {| users := users st;
          Orders := <[oid := setStatusCancelled o]> (Orders st);
          Users := Users st |})
  end.

(** The Mark for Renew button: [updateDoc(userRef, { "plan.paymentSubmitted": true })]. *)
Definition setPaymentSubmitted (p : Plan) : Plan :=
  {| paid := paid p;
     paymentSubmitted := Some true;
     totalMeals := totalMeals p;
     mealsRemaining := mealsRemaining p;
     startDate := startDate p;
     endDate := endDate p;
     receiptBase64 := receiptBase64 p;
     receiptName := receiptName p;
     uploadedAt := uploadedAt p;
     paymentApprovedAt := paymentApprovedAt p;
     planPrice := planPrice p;
     mealsLimit := mealsLimit p;
     chaiLimit := chaiLimit p;
     chaiRemaining := chaiRemaining p |}.

Definition markForRenew (st : Store) (uid : string) : Notice * Store :=
  match users st !! uid with
  | None => (RenewFlagFailed, st)
  | Some u =>
      (RenewFlagSet,
       {| users := <[uid := withPlan setPaymentSubmitted u]> (users st);
          Orders := Orders st; Users := Users st |})
  end.

(** [pendingPayments] and [approvedUsers]: the tests of the two filters. *)
Definition isPendingPayment (u : User) : bool :=
  default false (paymentSubmitted (plan u))
  || bool_decide (paymentStatus u = Some "pending").

Definition isApprovedUser (u : User) : bool :=
  default false (paid (plan u))
  || bool_decide (paymentStatus u = Some "approved").

Definition pendingPayments (users : list (string * User)) : list (string * User) :=
  List.filter (fun e => isPendingPayment e.2) users.

Definition approvedUsers (users : list (string * User)) : list (string * User) :=
  List.filter (fun e => isApprovedUser e.2) users.

(** The status label of a dashboard card. *)
Inductive StatusLabel := Active | Expired | PaymentSubmittedLabel | NoPlanLabel.

Definition statusLabel (p : Plan) (now : Z) : StatusLabel :=
  match default false (paid p), endDate p with
  | true, Some endDate => if endDate >=? now then Active else Expired
  | _, _ =>
      if default false (paymentSubmitted p) then PaymentSubmittedLabel
      else NoPlanLabel
  end.

(** [OrdersTab]: the two lists, under the optional customer filter. *)
Definition passesFilter (filterUser : option string) (o : Order) : bool :=
  match filterUser with
  | None => true
  | Some f => String.eqb (userID o) f
  end.

Definition isApproved (o : Order) : bool :=
  match status o with approved => true | _ => false end.

Definition pendingList (filterUser : option string) (orders : list (string * Order))
  : list (string * Order) :=
  List.filter (fun e => negb (isApproved e.2) && passesFilter filterUser e.2) orders.

Definition approvedList (filterUser : option string) (orders : list (string * Order))
  : list (string * Order) :=
  List.filter (fun e => isApproved e.2 && passesFilter filterUser e.2) orders.

(** [userStats]: the figures of each customer, from the two snapshots. *)
Record Stats := {
  statsUser : option User;
  statsOrders : list Order;
  approvedOrders : list Order;
  pendingOrders : list Order;
  totalSpent : Z;
  approvedCount : Z;
  pendingCount : Z;
  planUsedMeals : Z
}.

Definition newStats (u : option User) : Stats :=
  {| statsUser := u; statsOrders := []; approvedOrders := [];
     pendingOrders := []; totalSpent := 0; approvedCount := 0;
     pendingCount := 0; planUsedMeals := 0 |}.

(** The body of [orders.forEach] on the entry of the customer of [o]. *)
Definition addOrderStats (s : Stats) (o : Order) : Stats :=
  let used :=
    if isExtraOrder o then planUsedMeals s
    else planUsedMeals s + sumQty (items o) in
  match status o with
  | approved =>
      {| statsUser := statsUser s;
         statsOrders := statsOrders s ++ [o];
         approvedOrders := approvedOrders s ++ [o];
         pendingOrders := pendingOrders s;
         totalSpent := totalSpent s + totalPrice o;
         approvedCount := approvedCount s + 1;
         pendingCount := pendingCount s;
         planUsedMeals := used |}
  | _ =>
      {| statsUser := statsUser s;
         statsOrders := statsOrders s ++ [o];
         approvedOrders := approvedOrders s;
         pendingOrders := pendingOrders s ++ [o];
         totalSpent := totalSpent s + totalPrice o;
         approvedCount := approvedCount s;
         pendingCount := pendingCount s + 1;
         planUsedMeals := used |}
  end.

Definition userStats (users : list (string * User)) (orders : list (string * Order))
  : gmap string Stats :=
  let map0 :=
    fold_left (fun map e => <[e.1 := newStats (Some e.2)]> map) users ∅ in
  fold_left
    (fun map e =>
       let uid := userID e.2 in
       <[uid := addOrderStats (default (newStats None) (map !! uid)) e.2]> map)
    orders map0.

(** The orders of one customer in a snapshot, in its order. *)
Definition ordersOfUser (uid : string) (orders : list (string * Order)) : list Order :=
  snd <$> List.filter (fun e => String.eqb (userID e.2) uid) orders.

(** The ids of the menu. *)
Definition menuIds : list string := m_id <$> MENU.

(** The test [item.name === name] of functions.js. *)
Definition namedAs (name : string) (it : Item) : bool :=
  String.eqb (it_name it) name.

(** ** Auxiliary facts on sums *)

Lemma fold_left_add_acc {A} (f : A -> Z) (l : list A) (a : Z) :
  fold_left (fun s x => s + f x) l a = a + foldr (fun x s => f x + s) 0 l.
Proof.
  revert a. induction l as [|x l IH]; intros a; simpl.
  - lia.
  - rewrite IH. lia.
Qed.

Lemma fold_left_fmap {A B} (g : A -> B) (f : Z -> B -> Z) (l : list A) (a : Z) :
  fold_left f (g <$> l) a = fold_left (fun s x => f s (g x)) l a.
Proof.
  revert a. induction l as [|x l IH]; intros a; simpl; [done|]. apply IH.
Qed.

Lemma sumQty_foldr (its : list Item) :
  sumQty its = foldr (fun it s => quantity it + s) 0 its.
Proof. unfold sumQty. rewrite fold_left_add_acc. lia. Qed.

Lemma sumQty_nonneg (its : list Item) :
  Forall (fun it => 0 <= quantity it) its -> 0 <= sumQty its.
Proof.
  rewrite sumQty_foldr. induction 1 as [|it its Hq _ IH]; simpl; lia.
Qed.

Lemma sumQty_cartItems (cart : gmap string Z) :
  sumQty (cartItems cart) = cartTotalQty cart.
Proof.
  unfold sumQty, cartItems, cartTotalQty. by rewrite !fold_left_fmap.
Qed.

(** ** Checkout *)

Lemma cartItems_nil (cart : gmap string Z) : cartItems cart = [] -> cart = ∅.
Proof.
  unfold cartItems. intros H. apply fmap_nil_inv in H.
  by apply map_to_list_empty_iff.
Qed.

(** What [handleCheckout] does on a loaded profile and a cart with at
    least one line: it places a pending order and empties the cart. *)
Lemma handleCheckout_places (u : User) (orders : list Order) (now : Z)
    (uid : string) (stamp : Z) (cart : gmap string Z) :
  cart ≠ ∅ ->
  handleCheckout (Some u) orders now uid stamp cart =
    (OrderPlaced,
     Some {| userID := uid; items := cartItems cart;
             totalQty := cartTotalQty cart;
             totalPrice :=
               fold_left (fun s it => s + quantity it * price it) (cartItems cart) 0;
             status := pending;
             isExtraOrder :=
               negb (planPaid (Some u) &&
                     (cartTotalQty cart <=? planRemaining (Some u) orders now));
             date := Some stamp; approvedAt := None |},
     ∅).
Proof.
  intros Hne. unfold handleCheckout.
  destruct (cartItems cart) as [|it its] eqn:E.
  - by apply cartItems_nil in E.
  - rewrite <- E. fold (sumQty (cartItems cart)). rewrite sumQty_cartItems.
    unfold clearCart.
    destruct (planPaid (Some u)); simpl; [|done].
    by destruct (cartTotalQty cart <=? planRemaining (Some u) orders now).
Qed.

(** C1, as amended.  On a loaded profile and a non-empty cart, checkout
    places a pending order whose stored [totalPrice] is the plain sum of
    unit price times quantity over its lines, whether or not the order is
    flagged extra: no surcharge factor is applied.  Each line carries the
    cart's quantity and the menu's price of its item. *)
Theorem C1_checkout_total_is_plain_sum (u : User) (orders : list Order)
    (now : Z) (uid : string) (stamp : Z) (cart : gmap string Z) :
  cart ≠ ∅ ->
  exists o,
    handleCheckout (Some u) orders now uid stamp cart = (OrderPlaced, Some o, ∅)
    /\ totalPrice o = foldr (fun it s => price it * quantity it + s) 0 (items o)
    /\ totalPrice o = specPrice (items o) false
    /\ Forall (fun it => cart !! it_id it = Some (quantity it)
                         /\ price it = (menuMeta (it_id it)).2) (items o).
Proof.
  intros Hne. eexists. split; [by apply handleCheckout_places|]. simpl.
  assert (Hsum : fold_left (fun s it => s + quantity it * price it) (cartItems cart) 0
                 = foldr (fun it s => price it * quantity it + s) 0 (cartItems cart)).
  { rewrite fold_left_add_acc. rewrite Z.add_0_l.
    induction (cartItems cart) as [|it its IH]; simpl; [done|]. rewrite IH. lia. }
  split; [exact Hsum|]. split; [exact Hsum|].
  unfold cartItems. apply Forall_fmap, Forall_forall. intros [k q] Hin. simpl.
  apply elem_of_map_to_list in Hin. done.
Qed.

(** [calculatePrice] of functions.js, which checkout does not call, would
    not give 228 either: it prices a line by its name, 10 for each unit of
    a Paneer Sandwich, that is 24 for scenario A as an extra order. *)
Lemma calculatePrice_scenarioA :
  Functions.calculatePriceTenths [line "paneer-sandwich" 2] true = 24 * 10
  /\ Functions.calculatePriceTenths [line "paneer-sandwich" 2] false = 20 * 10.
Proof. split; reflexivity. Qed.

(** Scenario A under the code: 2 Paneer Sandwich on a profile without a
    paid plan. *)
Lemma C1_checkout_total_is_plain_sum_witness :
  exists o,
    handleCheckout (Some (userWith noPlan)) [] 0 "u1" 0 {[ "paneer-sandwich" := 2 ]}
      = (OrderPlaced, Some o, ∅)
    /\ totalPrice o = foldr (fun it s => price it * quantity it + s) 0 (items o)
    /\ totalPrice o = specPrice (items o) false
    /\ Forall (fun it => ({[ "paneer-sandwich" := 2 ]} : gmap string Z) !! it_id it
                           = Some (quantity it)
                         /\ price it = (menuMeta (it_id it)).2) (items o).
Proof.
  apply (C1_checkout_total_is_plain_sum (userWith noPlan) [] 0 "u1" 0
           {[ "paneer-sandwich" := 2 ]}).
  intros H. apply (f_equal (fun m : gmap string Z => m !! "paneer-sandwich")) in H.
  vm_compute in H. discriminate H.
Defined.

(** C1 as stated fails: in scenario A the order is flagged extra and its
    stored total is 190, not round(2 * 95 * 1.2) = 228. *)
Lemma C1_counterexample :
  exists o,
    handleCheckout (Some (userWith noPlan)) [] 0 "u1" 0 {[ "paneer-sandwich" := 2 ]}
      = (OrderPlaced, Some o, ∅)
    /\ isExtraOrder o = true
    /\ items o = [line "paneer-sandwich" 2]
    /\ totalPrice o = 190
    /\ specPrice (items o) true = 228
    /\ totalPrice o <> specPrice (items o) (isExtraOrder o).
Proof.
  eexists. split; [vm_compute; reflexivity|].
  repeat split; try reflexivity. vm_compute. discriminate.
Qed.

(** The flag that checkout computes, as a proposition. *)
Lemma handleCheckout_isExtraOrder (u : User) (orders : list Order) (now : Z)
    (cart : gmap string Z) :
  negb (planPaid (Some u) &&
        (cartTotalQty cart <=? planRemaining (Some u) orders now)) = true
  <-> planPaid (Some u) = false
      \/ planRemaining (Some u) orders now < cartTotalQty cart.
Proof.
  destruct (planPaid (Some u)); simpl.
  - destruct (Z.leb_spec (cartTotalQty cart) (planRemaining (Some u) orders now))
      as [Hle|Hlt]; simpl; split; intros Hx; try done.
    + destruct Hx; [done | lia].
    + by right.
  - split; intros _; [by left | done].
Qed.

(** C4, as amended.  The order placed by checkout is flagged extra exactly
    when [plan.paid] is not set or the total quantity of the cart exceeds
    the remaining capacity recomputed from the orders; [endDate] is not
    compared with the current time. *)
Theorem C4_isExtraOrder_iff_unpaid_or_over_capacity (u : User)
    (orders : list Order) (now : Z) (uid : string) (stamp : Z)
    (cart : gmap string Z) :
  cart ≠ ∅ ->
  exists o,
    handleCheckout (Some u) orders now uid stamp cart = (OrderPlaced, Some o, ∅)
    /\ totalQty o = cartTotalQty cart
    /\ (isExtraOrder o = true <->
        planPaid (Some u) = false
        \/ planRemaining (Some u) orders now < totalQty o).
Proof.
  intros Hne. eexists. split; [by apply handleCheckout_places|]. simpl.
  split; [done|]. apply handleCheckout_isExtraOrder.
Qed.

Lemma C4_isExtraOrder_iff_unpaid_or_over_capacity_witness :
  exists o,
    handleCheckout (Some (userWith (paidPlan 0 100 30))) [] 50 "u1" 50
      {[ "paneer-sandwich" := 31 ]} = (OrderPlaced, Some o, ∅)
    /\ totalQty o = cartTotalQty {[ "paneer-sandwich" := 31 ]}
    /\ (isExtraOrder o = true <->
        planPaid (Some (userWith (paidPlan 0 100 30))) = false
        \/ planRemaining (Some (userWith (paidPlan 0 100 30))) [] 50 < totalQty o).
Proof.
  apply (C4_isExtraOrder_iff_unpaid_or_over_capacity
           (userWith (paidPlan 0 100 30)) [] 50 "u1" 50
           {[ "paneer-sandwich" := 31 ]}).
  intros H. apply (f_equal (fun m : gmap string Z => m !! "paneer-sandwich")) in H.
  vm_compute in H. discriminate H.
Defined.

(** C4 as stated fails on a paid plan whose [endDate] has passed: the plan
    is not active in the specification's sense, yet an order within the
    capacity is not flagged extra. *)
Lemma C4_counterexample :
  exists o,
    handleCheckout (Some (userWith (paidPlan 0 100 30))) [] 200 "u1" 200
      {[ "paneer-sandwich" := 1 ]} = (OrderPlaced, Some o, ∅)
    /\ specActive (paidPlan 0 100 30) 200 = false
    /\ isExtraOrder o = false
    /\ ~ (isExtraOrder o = true <->
          specActive (paidPlan 0 100 30) 200 = false
          \/ planRemaining (Some (userWith (paidPlan 0 100 30))) [] 200 < totalQty o).
Proof.
  eexists. split; [vm_compute; reflexivity|].
  split; [reflexivity|]. split; [reflexivity|].
  intros [_ H]. specialize (H (or_introl eq_refl)). discriminate H.
Qed.

(** An active plan in the sense of the specification is a paid one. *)
Lemma specActive_planPaid (u : User) (now : Z) :
  specActive (plan u) now = true -> planPaid (Some u) = true.
Proof. unfold specActive, planPaid. by intros [H _]%andb_prop. Qed.

(** Where the paid plan has not run out ([endDate >= now]), the flag agrees
    with the specification's reading of an active plan. *)
Lemma isExtraOrder_unless_expired (u : User) (orders : list Order) (now : Z)
    (uid : string) (stamp : Z) (cart : gmap string Z) :
  cart ≠ ∅ ->
  (planPaid (Some u) = true -> specActive (plan u) now = true) ->
  exists o,
    handleCheckout (Some u) orders now uid stamp cart = (OrderPlaced, Some o, ∅)
    /\ (isExtraOrder o = true <->
        specActive (plan u) now = false
        \/ planRemaining (Some u) orders now < totalQty o).
Proof.
  intros Hne Hact. eexists. split; [by apply handleCheckout_places|].
  cbn [isExtraOrder totalQty].
  rewrite (handleCheckout_isExtraOrder u orders now cart).
  pose proof (specActive_planPaid u now) as Hpaid.
  destruct (planPaid (Some u)), (specActive (plan u) now); try tauto.
  - specialize (Hact eq_refl). discriminate.
  - specialize (Hpaid eq_refl). discriminate.
Qed.

(** ** Cart *)

(** The quantities of a cart are never negative, and the lines of the
    order that checkout writes inherit that. *)
Lemma addToCart_cartOk (profile : option User) (orders : list Order) (now : Z)
    (cart : gmap string Z) (itemId : string) :
  cartOk cart -> cartOk (addToCart profile orders now cart itemId).2.
Proof.
  intros Hok.
  assert (Hadd : cartOk (<[itemId := default 0 (cart !! itemId) + 1]> cart)).
  { apply map_Forall_insert_2; [|done].
    destruct (cart !! itemId) as [n|] eqn:E; simpl; [|lia].
    pose proof (map_Forall_lookup_1 _ _ _ _ Hok E) as Hn. simpl in Hn. lia. }
  unfold addToCart.
  repeat match goal with
         | |- context [if ?b then _ else _] => destruct b
         end; done.
Qed.

Lemma removeFromCart_cartOk (cart : gmap string Z) (itemId : string) :
  cartOk cart -> cartOk (removeFromCart cart itemId).
Proof.
  intros Hok. unfold removeFromCart.
  destruct (cart !! itemId) as [n|]; [|done].
  destruct (n =? 0); [done|].
  destruct (Z.max 0 (n - 1) =? 0).
  - by apply map_Forall_delete.
  - apply map_Forall_insert_2; [lia | done].
Qed.

Lemma setCartQty_cartOk (cart : gmap string Z) (itemId : string) (qty : Z) :
  cartOk cart -> cartOk (setCartQty cart itemId qty).
Proof. intros Hok. apply map_Forall_insert_2; [lia | done]. Qed.

Lemma cartItems_linesOk (cart : gmap string Z) :
  cartOk cart -> linesOk (cartItems cart).
Proof.
  intros Hok. unfold linesOk, cartItems. apply Forall_fmap, Forall_forall.
  intros [k q] Hin. simpl. apply elem_of_map_to_list in Hin.
  exact (map_Forall_lookup_1 _ _ _ _ Hok Hin).
Qed.

Lemma addToCart_unpaid (profile : option User) (orders : list Order) (now : Z)
    (cart : gmap string Z) (itemId : string) :
  planPaid profile = false ->
  addToCart profile orders now cart itemId
  = (None, <[itemId := default 0 (cart !! itemId) + 1]> cart).
Proof. intros H. unfold addToCart. by rewrite H. Qed.

(** A successful [addToCart] raises the line of the item by exactly one
    and leaves the other lines alone. *)
Lemma addToCart_success (profile : option User) (orders : list Order) (now : Z)
    (cart cart' : gmap string Z) (itemId : string) :
  addToCart profile orders now cart itemId = (None, cart') ->
  cart' !! itemId = Some (default 0 (cart !! itemId) + 1)
  /\ forall j, j <> itemId -> cart' !! j = cart !! j.
Proof.
  unfold addToCart. intros H.
  assert (cart' = <[itemId := default 0 (cart !! itemId) + 1]> cart) as ->.
  { repeat match type of H with
           | (if ?b then _ else _) = _ => destruct b
           end; congruence. }
  split; [apply lookup_insert_eq|].
  intros j Hj. by apply lookup_insert_ne.
Qed.

(** [setCartQty] stores the quantity clamped to [[0, 10]] and leaves the
    other lines alone. *)
Lemma setCartQty_clamped (cart : gmap string Z) (itemId : string) (n : Z) :
  exists q, setCartQty cart itemId n !! itemId = Some q
            /\ 0 <= q <= 10
            /\ q = Z.max 0 (Z.min 10 n)
            /\ forall j, j <> itemId -> setCartQty cart itemId n !! j = cart !! j.
Proof.
  unfold setCartQty. eexists. split; [apply lookup_insert_eq|].
  split; [lia|]. split; [done|]. intros j Hj. by apply lookup_insert_ne.
Qed.

(** C6, as amended.  On a paid plan (every active plan is one), when one
    more unit would take the cart's total above the remaining capacity,
    [addToCart] raises an alert and leaves the cart as it was.  The alert
    follows the order of the tests: plan full when nothing remains, item
    maxed when the item is on five plan orders, and only otherwise the
    capacity-exceeded one. *)
Theorem C6_addToCart_rejects_over_capacity (profile : option User)
    (orders : list Order) (now : Z) (cart : gmap string Z) (itemId : string) :
  planPaid profile = true ->
  planRemaining profile orders now < cartTotalQty cart + 1 ->
  addToCart profile orders now cart itemId
  = (Some (if planRemaining profile orders now <=? 0 then PlanCapacityReached
           else if default 0 (itemPlanCounts profile orders now !! itemId)
                   >=? PER_ITEM_MAX
                then ItemMaxedForPlan
                else ExceedsPlanCapacity),
     cart).
Proof.
  intros Hp Hover. unfold addToCart. rewrite Hp.
  destruct (planRemaining profile orders now <=? 0); [done|].
  destruct (default 0 (itemPlanCounts profile orders now !! itemId) >=? PER_ITEM_MAX);
    [done|].
  destruct (Z.gtb_spec (cartTotalQty cart + 1) (planRemaining profile orders now));
    [done | lia].
Qed.

(** Scenario B: 27 units already on plan orders of the window, so 3
    remain; the cart holds 3 units and a fourth is refused, the cart
    staying as it was. *)
Lemma C6_addToCart_rejects_over_capacity_witness :
  addToCart (Some (userWith (paidPlan 0 100 3)))
    [orderOf [line "tofu-sandwich" 9] false approved 10;
     orderOf [line "melon-mint" 9] false approved 20;
     orderOf [line "black-chana" 9] false pending 30]
    50 {[ "paneer-sandwich" := 3 ]} "paneer-sandwich"
  = (Some ExceedsPlanCapacity, {[ "paneer-sandwich" := 3 ]}).
Proof.
  apply (C6_addToCart_rejects_over_capacity
           (Some (userWith (paidPlan 0 100 3)))
           [orderOf [line "tofu-sandwich" 9] false approved 10;
            orderOf [line "melon-mint" 9] false approved 20;
            orderOf [line "black-chana" 9] false pending 30]
           50 {[ "paneer-sandwich" := 3 ]} "paneer-sandwich").
  - reflexivity.
  - vm_compute. reflexivity.
Defined.

(** C6 as stated fails when nothing remains: the plan is active, one more
    unit would exceed the remaining capacity, and the add is refused with
    the plan-full alert, not the capacity-exceeded one. *)
Lemma C6_counterexample :
  let profile := Some (userWith (paidPlan 0 100 0)) in
  let orders := [orderOf [line "tofu-sandwich" 10] false approved 10;
                 orderOf [line "melon-mint" 10] false approved 20;
                 orderOf [line "black-chana" 10] false approved 30] in
  specActive (paidPlan 0 100 0) 50 = true
  /\ planRemaining profile orders 50 = 0
  /\ planRemaining profile orders 50 < cartTotalQty ∅ + 1
  /\ addToCart profile orders 50 ∅ "paneer-sandwich" = (Some PlanCapacityReached, ∅)
  /\ addToCart profile orders 50 ∅ "paneer-sandwich" <> (Some ExceedsPlanCapacity, ∅).
Proof.
  repeat split; try (vm_compute; reflexivity).
  vm_compute. discriminate.
Qed.

(** C7: [addToCart] has no per-line cap.  On a line that already holds 10
    units the add succeeds and stores 11, with or without a paid plan; the
    cart box reaches the same line through [setCartQty], which stops at
    10. *)
Theorem C7_addToCart_exceeds_line_cap :
  addToCart (Some (userWith noPlan)) [] 0 {[ "paneer-sandwich" := 10 ]}
    "paneer-sandwich" = (None, {[ "paneer-sandwich" := 11 ]})
  /\ addToCart (Some (userWith (paidPlan 0 100 30))) [] 50
       {[ "paneer-sandwich" := 10 ]} "paneer-sandwich"
     = (None, {[ "paneer-sandwich" := 11 ]})
  /\ setCartQty {[ "paneer-sandwich" := 10 ]} "paneer-sandwich" (Z.min 10 (10 + 1))
     = {[ "paneer-sandwich" := 10 ]}.
Proof. repeat split; vm_compute; reflexivity. Qed.

(** ** The capacity that gates the cart *)

Lemma planUsedCount_windowUsed (u : User) (orders : list Order) (now s e : Z) :
  paid (plan u) = Some true ->
  startDate (plan u) = Some s ->
  endDate (plan u) = Some e ->
  planUsedCount (Some u) orders now = windowUsed s e now orders.
Proof.
  intros Hp Hs He.
  unfold planUsedCount, userPlanOrders, planPaid, planStart, planEnd, oDate.
  rewrite Hp, Hs, He. simpl. rewrite fold_left_add_acc, Z.add_0_l.
  induction orders as [|o rest IH]; simpl; [done|].
  destruct (isExtraOrder o); simpl; [lia|].
  destruct ((s <=? default now (date o)) && (default now (date o) <=? e));
    simpl; lia.
Qed.

Lemma addToCart_depends_on_paid_and_window (u u' : User) (orders : list Order)
    (now : Z) (cart : gmap string Z) (itemId : string) :
  paid (plan u') = paid (plan u) ->
  startDate (plan u') = startDate (plan u) ->
  endDate (plan u') = endDate (plan u) ->
  addToCart (Some u') orders now cart itemId
  = addToCart (Some u) orders now cart itemId.
Proof.
  intros Hp Hs He.
  unfold addToCart, planRemaining, planUsedCount, itemPlanCounts,
    userPlanOrders, planPaid, planStart, planEnd.
  by rewrite Hp, Hs, He.
Qed.

Lemma sumQty_unitsOf (its : list Item) : sumQty its = unitsOf its.
Proof.
  rewrite sumQty_foldr. induction its as [|it l IH]; [done|].
  cbn [foldr unitsOf]. by rewrite IH.
Qed.

Lemma planUsedCount_gateCapacity (u : User) (orders : list Order) (now s e : Z) :
  paid (plan u) = Some true ->
  startDate (plan u) = Some s ->
  endDate (plan u) = Some e ->
  planUsedCount (Some u) orders now = 30 - gateCapacity s e now orders.
Proof.
  intros Hp Hs He. rewrite (planUsedCount_windowUsed u orders now s e) by done.
  induction orders as [|o rest IH]; [done|].
  cbn [windowUsed gateCapacity]. unfold countsInWindow.
  rewrite IH, sumQty_unitsOf.
  destruct (negb (isExtraOrder o) && (s <=? default now (date o))
            && (default now (date o) <=? e)); lia.
Qed.

(** C10.  On a paid plan with window [[s, e]] the capacity that gates
    [addToCart] is recomputed from the orders: it is 30 minus the
    quantities of the lines of the non-extra orders dated within the
    window, whatever their status.  [addToCart] refuses on that capacity,
    in the order of its tests, and adds one unit otherwise; the floor at 0
    of [planRemaining] is invisible to its two tests.  The stored
    [mealsRemaining] plays no part: the outcome is the same whatever it
    holds.  One more order of the window, pending or not, lowers the
    capacity by its quantity. *)
Theorem C10_gate_capacity_recomputed_from_orders (u : User)
    (orders : list Order) (now s e : Z) (cart : gmap string Z)
    (itemId : string) :
  paid (plan u) = Some true ->
  startDate (plan u) = Some s ->
  endDate (plan u) = Some e ->
  let capacity := gateCapacity s e now orders in
  planRemaining (Some u) orders now = Z.max 0 capacity
  /\ addToCart (Some u) orders now cart itemId
     = (if capacity <=? 0 then (Some PlanCapacityReached, cart)
        else if 5 <=? default 0 (itemPlanCounts (Some u) orders now !! itemId)
        then (Some ItemMaxedForPlan, cart)
        else if capacity <? cartTotalQty cart + 1
        then (Some ExceedsPlanCapacity, cart)
        else (None, <[itemId := default 0 (cart !! itemId) + 1]> cart))
  /\ (forall v, addToCart (Some (withPlan (setMealsRemaining v) u)) orders now
                  cart itemId
                = addToCart (Some u) orders now cart itemId)
  /\ (forall o, isExtraOrder o = false ->
                s <= oDate now o <= e ->
                gateCapacity s e now (o :: orders)
                = capacity - unitsOf (items o)
                /\ planRemaining (Some u) (o :: orders) now
                   = Z.max 0 (capacity - unitsOf (items o))).
Proof.
  intros Hp Hs He capacity.
  assert (Hrem : forall l, planRemaining (Some u) l now
                           = Z.max 0 (gateCapacity s e now l)).
  { intros l. unfold planRemaining, PLAN_CAPACITY.
    rewrite (planUsedCount_gateCapacity u l now s e) by done. f_equal. lia. }
  split; [apply Hrem|]. split; [|split].
  - unfold addToCart. rewrite Hrem. fold capacity.
    unfold planPaid, PER_ITEM_MAX. rewrite Hp. cbn [default].
    destruct (Z.leb_spec (Z.max 0 capacity) 0) as [H0|H0],
      (Z.leb_spec capacity 0) as [H1|H1]; try lia; [done|].
    rewrite Z.geb_leb.
    destruct (5 <=? default 0 (itemPlanCounts (Some u) orders now !! itemId));
      [done|].
    rewrite Z.gtb_ltb. by replace (Z.max 0 capacity) with capacity by lia.
  - intros v. by apply addToCart_depends_on_paid_and_window.
  - intros o Hex [Hlo Hhi].
    assert (Hc : gateCapacity s e now (o :: orders)
                 = capacity - unitsOf (items o)).
    { cbn [gateCapacity]. unfold countsInWindow. unfold oDate in Hlo, Hhi.
      apply Z.leb_le in Hlo, Hhi. by rewrite Hex, Hlo, Hhi. }
    split; [exact Hc|]. by rewrite Hrem, Hc.
Qed.

(** A pending order of 9 units in the window of a plan whose stored balance
    is still 30: the capacity is 21, a cart of 20 units takes one more and
    a cart of 21 units is refused. *)
Lemma C10_gate_capacity_recomputed_from_orders_witness :
  let u := userWith (paidPlan 0 100 30) in
  let orders := [orderOf [line "tofu-sandwich" 9] false pending 10] in
  let cart20 : gmap string Z := {[ "paneer-sandwich" := 10; "melon-mint" := 10 ]} in
  let cart21 : gmap string Z := {[ "paneer-sandwich" := 10; "melon-mint" := 11 ]} in
  mealsRemaining (plan u) = Some 30
  /\ planRemaining (Some u) orders 50 = 21
  /\ addToCart (Some u) orders 50 cart20 "melon-mint" = (None, cart21)
  /\ addToCart (Some u) orders 50 cart21 "melon-mint"
     = (Some ExceedsPlanCapacity, cart21)
  /\ planRemaining (Some u)
       (orderOf [line "melon-mint" 21] false pending 20 :: orders) 50 = 0.
Proof.
  intros u orders cart20 cart21.
  assert (Hpaid : paid (plan u) = Some true) by reflexivity.
  assert (Hs : startDate (plan u) = Some 0) by reflexivity.
  assert (He : endDate (plan u) = Some 100) by reflexivity.
  pose proof (C10_gate_capacity_recomputed_from_orders u orders 50 0 100
                cart20 "melon-mint" Hpaid Hs He) as (Hrem & Hadd & _ & Hmore).
  pose proof (C10_gate_capacity_recomputed_from_orders u orders 50 0 100
                cart21 "melon-mint" Hpaid Hs He) as (_ & Hadd' & _ & _).
  split; [reflexivity|]. split; [rewrite Hrem; reflexivity|].
  split; [rewrite Hadd; vm_compute; reflexivity|].
  split; [rewrite Hadd'; vm_compute; reflexivity|].
  destruct (Hmore (orderOf [line "melon-mint" 21] false pending 20)) as [_ H];
    [reflexivity | vm_compute; split; discriminate |].
  rewrite H. reflexivity.
Defined.

(** ** Payment approval and renewal request *)

(** [setDate(getDate() + 30)] keeps the local clock time and moves the
    local date by 30 days, whatever the calendar; the instant follows from
    the offset in force at the new local time. *)
Lemma plus30Days_local (LocalTZA : Z -> bool -> Z) (monthStartDay : Z -> Z)
    (sd : Z) :
  plus30Days LocalTZA monthStartDay sd
  = UTC LocalTZA (LocalTime LocalTZA sd + 30 * msPerDay).
Proof.
  unfold plus30Days, setDate, getDate, DateFromTime, MakeDay, MakeDate,
    TimeWithinDay, Day.
  set (t := LocalTime LocalTZA sd). f_equal.
  pose proof (Z.div_mod t msPerDay) as Hdm.
  assert (msPerDay <> 0) as Hne by (unfold msPerDay; lia).
  specialize (Hdm Hne). lia.
Qed.

Lemma plus30Days_exact (LocalTZA : Z -> bool -> Z) (monthStartDay : Z -> Z)
    (sd : Z) :
  plus30Days LocalTZA monthStartDay sd
  = sd + 30 * msPerDay
    + (LocalTZA sd true
       - LocalTZA (sd + LocalTZA sd true + 30 * msPerDay) false).
Proof. rewrite plus30Days_local. unfold UTC, LocalTime. lia. Qed.

(** C8, as amended.  Approving the payment of an existing user, through the
    owner view or through the owner panel of the customer view, sets
    [paid], clears [paymentSubmitted], sets [totalMeals] and
    [mealsRemaining] to 30 and [startDate] to the approval time.  [endDate]
    is the instant at which the local clock shows the same time 30 days
    later in the calendar: [startDate] plus 30 days of 86 400 000 ms, plus
    what the offset of the local zone lost between the two dates.  It is
    [startDate] plus 30 days of 86 400 000 ms exactly where the offset is
    the same at both. *)
Theorem C8_payment_approval_activates_plan (LocalTZA : Z -> bool -> Z)
    (monthStartDay : Z -> Z) (st : Store) (uid : string) (u snap : User)
    (start stamp : Z) :
  users st !! uid = Some u ->
  let shift :=
    LocalTZA start true
    - LocalTZA (start + LocalTZA start true + 30 * 86400000) false in
  (exists u',
     approvePayment LocalTZA monthStartDay st uid snap start stamp
       = (PlanActivated,
          {| users := <[uid := u']> (users st); Orders := Orders st; Users := Users st |})
     /\ paid (plan u') = Some true
     /\ paymentSubmitted (plan u') = Some false
     /\ totalMeals (plan u') = Some 30
     /\ mealsRemaining (plan u') = Some 30
     /\ startDate (plan u') = Some start
     /\ endDate (plan u') = Some (start + 30 * 86400000 + shift)
     /\ (shift = 0 -> endDate (plan u') = Some (start + 30 * 86400000)))
  /\ (exists u',
     ownerApprovePlan LocalTZA monthStartDay st uid start
       = (PlanActivated,
          {| users := <[uid := u']> (users st); Orders := Orders st; Users := Users st |})
     /\ paid (plan u') = Some true
     /\ paymentSubmitted (plan u') = Some false
     /\ totalMeals (plan u') = Some 30
     /\ mealsRemaining (plan u') = Some 30
     /\ startDate (plan u') = Some start
     /\ endDate (plan u') = Some (start + 30 * 86400000 + shift)
     /\ (shift = 0 -> endDate (plan u') = Some (start + 30 * 86400000))).
Proof.
  intros Hu shift.
  assert (He : plus30Days LocalTZA monthStartDay start
               = start + 30 * 86400000 + shift).
  { by rewrite plus30Days_exact. }
  split.
  - unfold approvePayment. rewrite Hu. eexists. split; [reflexivity|].
    cbn [plan approvePaymentFields paid paymentSubmitted totalMeals
           mealsRemaining startDate endDate].
    rewrite He. repeat split; try done. intros ->. by rewrite Z.add_0_r.
  - unfold ownerApprovePlan. rewrite Hu. eexists. split; [reflexivity|].
    cbn [plan withPlan activatePlanFields paid paymentSubmitted totalMeals
           mealsRemaining startDate endDate].
    rewrite He. repeat split; try done. intros ->. by rewrite Z.add_0_r.
Qed.

(** Scenario D on a user without plan, on a host in India: the owner
    approves at time 1000 and the plan ends 30 days of 86 400 000 ms
    later. *)
Lemma C8_payment_approval_activates_plan_witness :
  let st := {| users := {[ "u1" := userWith noPlan ]}; Orders := ∅; Users := ∅ |} in
  (exists u',
     approvePayment IST thirtyDayMonths st "u1" (userWith noPlan) 1000 1001
       = (PlanActivated,
          {| users := <["u1" := u']> (users st); Orders := Orders st; Users := Users st |})
     /\ paid (plan u') = Some true
     /\ paymentSubmitted (plan u') = Some false
     /\ totalMeals (plan u') = Some 30
     /\ mealsRemaining (plan u') = Some 30
     /\ startDate (plan u') = Some 1000
     /\ endDate (plan u') = Some 2592001000)
  /\ (exists u',
     ownerApprovePlan IST thirtyDayMonths st "u1" 1000
       = (PlanActivated,
          {| users := <["u1" := u']> (users st); Orders := Orders st; Users := Users st |})
     /\ paid (plan u') = Some true
     /\ paymentSubmitted (plan u') = Some false
     /\ totalMeals (plan u') = Some 30
     /\ mealsRemaining (plan u') = Some 30
     /\ startDate (plan u') = Some 1000
     /\ endDate (plan u') = Some 2592001000).
Proof.
  intros st.
  assert (Hu : users st !! "u1" = Some (userWith noPlan)) by reflexivity.
  destruct (C8_payment_approval_activates_plan IST thirtyDayMonths st "u1"
              (userWith noPlan) (userWith noPlan) 1000 1001 Hu)
    as [(u1 & H1 & Hp1 & Hs1 & Ht1 & Hr1 & Hsd1 & _ & He1)
        (u2 & H2 & Hp2 & Hs2 & Ht2 & Hr2 & Hsd2 & _ & He2)].
  split.
  - exists u1. repeat split; try assumption. by apply He1.
  - exists u2. repeat split; try assumption. by apply He2.
Defined.

(** C8 as stated fails on a host whose zone changes its offset between the
    two dates.  In New York the owner approves on 20 October 2026 at 12:00
    of the local clock (16:00 UTC); the plan ends on 19 November 2026 at
    12:00 of the local clock (17:00 UTC), 30 days and one hour later. *)
Lemma C8_counterexample :
  let st := {| users := {[ "u1" := userWith noPlan ]}; Orders := ∅; Users := ∅ |} in
  let start := 1792512000000 in
  let st1 := (approvePayment newYorkAutumn2026 lastQuarter2026 st "u1"
                (userWith noPlan) start (start + 1)).2 in
  let st2 := (ownerApprovePlan newYorkAutumn2026 lastQuarter2026 st "u1" start).2 in
  (startDate <$> (plan <$> users st1 !! "u1")) = Some (Some start)
  /\ (endDate <$> (plan <$> users st1 !! "u1")) = Some (Some 1795107600000)
  /\ (endDate <$> (plan <$> users st2 !! "u1")) = Some (Some 1795107600000)
  /\ 1795107600000 = start + 30 * 86400000 + 3600000
  /\ 1795107600000 <> start + 30 * 86400000.
Proof. repeat split; try (vm_compute; reflexivity). discriminate. Qed.

(** C9.  The renewal request of an existing user sets [paymentSubmitted],
    clears [paid], zeroes [mealsRemaining], empties both dates and leaves
    every other field of the plan, the rest of the user document, the other
    users and the orders as they were. *)
Theorem C9_renewal_request_fields (st : Store) (uid : string) (u : User) :
  users st !! uid = Some u ->
  exists u',
    handleRenewPlan st uid
      = (RenewalRequestSent,
         {| users := <[uid := u']> (users st); Orders := Orders st; Users := Users st |})
    /\ paymentSubmitted (plan u') = Some true
    /\ paid (plan u') = Some false
    /\ mealsRemaining (plan u') = Some 0
    /\ startDate (plan u') = None
    /\ endDate (plan u') = None
    /\ totalMeals (plan u') = totalMeals (plan u)
    /\ receiptBase64 (plan u') = receiptBase64 (plan u)
    /\ receiptName (plan u') = receiptName (plan u)
    /\ uploadedAt (plan u') = uploadedAt (plan u)
    /\ paymentApprovedAt (plan u') = paymentApprovedAt (plan u)
    /\ planPrice (plan u') = planPrice (plan u)
    /\ mealsLimit (plan u') = mealsLimit (plan u)
    /\ chaiLimit (plan u') = chaiLimit (plan u)
    /\ chaiRemaining (plan u') = chaiRemaining (plan u)
    /\ paymentStatus u' = paymentStatus u.
Proof.
  intros Hu. unfold handleRenewPlan. rewrite Hu.
  eexists. split; [reflexivity|]. simpl. repeat split.
Qed.

Lemma C9_renewal_request_fields_witness :
  let st := {| users := {[ "u1" := userWith (paidPlan 0 100 0) ]}; Orders := ∅; Users := ∅ |} in
  let u := userWith (paidPlan 0 100 0) in
  exists u',
    handleRenewPlan st "u1"
      = (RenewalRequestSent,
         {| users := <["u1" := u']> (users st); Orders := Orders st; Users := Users st |})
    /\ paymentSubmitted (plan u') = Some true
    /\ paid (plan u') = Some false
    /\ mealsRemaining (plan u') = Some 0
    /\ startDate (plan u') = None
    /\ endDate (plan u') = None
    /\ totalMeals (plan u') = totalMeals (plan u)
    /\ receiptBase64 (plan u') = receiptBase64 (plan u)
    /\ receiptName (plan u') = receiptName (plan u)
    /\ uploadedAt (plan u') = uploadedAt (plan u)
    /\ paymentApprovedAt (plan u') = paymentApprovedAt (plan u)
    /\ planPrice (plan u') = planPrice (plan u)
    /\ mealsLimit (plan u') = mealsLimit (plan u)
    /\ chaiLimit (plan u') = chaiLimit (plan u)
    /\ chaiRemaining (plan u') = chaiRemaining (plan u)
    /\ paymentStatus u' = paymentStatus u.
Proof.
  apply (C9_renewal_request_fields
           {| users := {[ "u1" := userWith (paidPlan 0 100 0) ]}; Orders := ∅; Users := ∅ |}
           "u1" (userWith (paidPlan 0 100 0))).
  reflexivity.
Defined.

(** ** Order approval *)

Lemma decrementMeals_balance (dflt : Z) (its : list Item) (p : Plan) :
  mealsRemaining (decrementMeals dflt its p)
  = Some (Z.max 0 (default dflt (mealsRemaining p) - sumQty its)).
Proof. reflexivity. Qed.

(** [ownerApproveOrder] on a stored plan order whose owner exists,
    whatever the status of the order. *)
Lemma ownerApproveOrder_plan_order (st : Store) (orderId : string)
    (o : Order) (u : User) :
  Orders st !! orderId = Some o ->
  isExtraOrder o = false ->
  userID o <> "" ->
  users st !! userID o = Some u ->
  ownerApproveOrder st orderId
  = (OrderApproved,
     {| users := <[userID o := withPlan (decrementMeals PLAN_CAPACITY (items o)) u]>
                   (users st);
        Orders := <[orderId := setStatusApproved None o]> (Orders st);
        Users := Users st |}).
Proof.
  intros Ho Hx Hid Hu. unfold ownerApproveOrder. rewrite Ho, Hx.
  apply String.eqb_neq in Hid. rewrite Hid. simpl. by rewrite Hu.
Qed.

(** [approveOrder] of Owner.js on a listed plan order whose owner exists. *)
Lemma approveOrder_plan_order (st : Store) (oid : string) (order stored : Order)
    (stamp : Z) (u : User) :
  Orders st !! oid = Some stored ->
  isExtraOrder order = false ->
  userID order <> "" ->
  users st !! userID order = Some u ->
  approveOrder st oid order stamp
  = (OrderApproved,
     {| users := <[userID order := withPlan (decrementMeals 30 (items order)) u]>
                   (users st);
        Orders := <[oid := setStatusApproved (Some stamp) stored]> (Orders st);
        Users := Users st |}).
Proof.
  intros Ho Hx Hid Hu. unfold approveOrder. rewrite Ho, Hx.
  apply String.eqb_neq in Hid. rewrite Hid. simpl. by rewrite Hu.
Qed.

(** The loop of [approveOrder] of functions.js over the lines it is
    given. *)
Lemma fold_decrementLine (items : list Item) (p : LegacyPlan) :
  fold_left Functions.decrementLine items p
  = {| legacyMealsRemaining :=
         legacyMealsRemaining p
         - sumQty (List.filter (namedAs "Healthy Meal") items);
       legacyChaiRemaining :=
         legacyChaiRemaining p - sumQty (List.filter (namedAs "Chai") items) |}.
Proof.
  revert p. induction items as [|it l IH]; intros [m c].
  - cbn. f_equal; lia.
  - cbn [fold_left]. rewrite IH. rewrite !sumQty_foldr.
    unfold Functions.decrementLine. cbn [List.filter].
    change (String.eqb (it_name it) "Healthy Meal")
      with (namedAs "Healthy Meal" it).
    change (String.eqb (it_name it) "Chai") with (namedAs "Chai" it).
    destruct (namedAs "Healthy Meal" it), (namedAs "Chai" it);
      cbn [foldr legacyMealsRemaining legacyChaiRemaining]; f_equal; lia.
Qed.

(** C5.  The claim holds for the two handlers of the views and fails for
    [approveOrder] of functions.js.  For a stored plan order of total
    quantity [q] whose customer has [r] meals left, the handlers of the
    owner view and of the owner panel leave [max 0 (r - q)].  The helper of
    functions.js, on the document of ["Users"] it addresses, takes the
    units of the lines named Healthy Meal off the balance with no floor:
    the result is negative as soon as they exceed the balance. *)
Theorem C5_functions_approveOrder_decrement_not_clamped (st : Store)
    (oid : string) (o : Order) (stamp : Z) (u : User) (r : Z)
    (ud : LegacyUser) :
  Orders st !! oid = Some o ->
  isExtraOrder o = false ->
  userID o <> "" ->
  users st !! userID o = Some u ->
  mealsRemaining (plan u) = Some r ->
  Users st !! userID o = Some ud ->
  let q := sumQty (items o) in
  let rl := legacyMealsRemaining (legacyPlan ud) in
  let ql := sumQty (List.filter (namedAs "Healthy Meal") (items o)) in
  mealsOf (approveOrder st oid o stamp).2 (userID o) = Some (Z.max 0 (r - q))
  /\ mealsOf (ownerApproveOrder st oid).2 (userID o) = Some (Z.max 0 (r - q))
  /\ 0 <= Z.max 0 (r - q)
  /\ legacyMealsOf
       (Functions.storeOf (Functions.approveOrder st oid (userID o) (items o)))
       (userID o)
     = Some (rl - ql)
  /\ (rl < ql -> rl - ql < 0 /\ rl - ql <> Z.max 0 (rl - ql)).
Proof.
  intros Ho Hx Hid Hu Hr Hl q rl ql.
  rewrite (ownerApproveOrder_plan_order st oid o u) by done.
  rewrite (approveOrder_plan_order st oid o o stamp u) by done.
  unfold mealsOf, legacyMealsOf, Functions.approveOrder.
  rewrite Ho. cbn [Users]. rewrite Hl.
  cbn [snd users Users Functions.storeOf]. rewrite !lookup_insert_eq.
  cbn [mbind option_bind plan withPlan legacyPlan legacyMealsRemaining].
  rewrite !decrementMeals_balance, Hr, fold_decrementLine.
  cbn [default legacyMealsRemaining].
  repeat split; try done; lia.
Qed.

(** One meal left and an order of two Healthy Meals: the handlers of the
    views leave 0, the helper of functions.js leaves -1. *)
Lemma C5_functions_approveOrder_decrement_not_clamped_witness :
  let o := orderOf (healthyMeals 2) false pending 10 in
  mealsOf (approveOrder legacyStore "o1" o 11).2 "u1" = Some 0
  /\ mealsOf (ownerApproveOrder legacyStore "o1").2 "u1" = Some 0
  /\ legacyMealsOf legacyStore "u1" = Some 1
  /\ legacyMealsOf
       (Functions.storeOf
          (Functions.approveOrder legacyStore "o1" "u1" (healthyMeals 2)))
       "u1"
     = Some (-1).
Proof.
  intros o.
  assert (Hid : userID o <> "") by discriminate.
  destruct (C5_functions_approveOrder_decrement_not_clamped legacyStore "o1" o
              11 (userWith (paidPlan 0 100 1)) 1
              {| legacyPlan := {| legacyMealsRemaining := 1;
                                  legacyChaiRemaining := 12 |} |}
              eq_refl eq_refl Hid eq_refl eq_refl eq_refl)
    as (H1 & H2 & _ & H3 & _).
  split; [exact H1|]. split; [exact H2|]. split; [reflexivity|]. exact H3.
Defined.

(** *** The helper of functions.js

    [approveOrder] of functions.js is imported by no module and addresses
    the collection ["Users"]: whatever it is given, it leaves the customer
    records of ["users"] as they are. *)
Lemma functions_approveOrder_leaves_users (st : Store) (orderID userID : string)
    (items : list Item) :
  users (Functions.storeOf (Functions.approveOrder st orderID userID items))
  = users st.
Proof.
  unfold Functions.approveOrder.
  destruct (Orders st !! orderID); simpl; [|done].
  by destruct (Users st !! userID).
Qed.

(** On a document of ["Users"] it subtracts the quantities of the lines
    named "Healthy Meal", without the clamp of the two handlers above: one
    meal left and two ordered leave -1 there. *)
Lemma functions_approveOrder_unclamped :
  exists st',
    Functions.approveOrder legacyStore "o1" "u1" (healthyMeals 2)
      = Functions.Resolved st'
    /\ (legacyMealsRemaining <$> (legacyPlan <$> Users st' !! "u1")) = Some (-1)
    /\ mealsOf st' "u1" = Some 1.
Proof. eexists. repeat split; vm_compute; reflexivity. Qed.

(** Either handler leaves an existing order approved. *)
Lemma ownerApproveOrder_marks_approved (st : Store) (orderId : string) (o : Order) :
  Orders st !! orderId = Some o ->
  Orders (ownerApproveOrder st orderId).2 !! orderId
  = Some (setStatusApproved None o).
Proof.
  intros Ho. unfold ownerApproveOrder. rewrite Ho.
  destruct (isExtraOrder o); simpl; [by rewrite lookup_insert_eq|].
  destruct (String.eqb (userID o) ""); simpl; [by rewrite lookup_insert_eq|].
  destruct (users st !! userID o); simpl; by rewrite lookup_insert_eq.
Qed.

Lemma approveOrder_marks_approved (st : Store) (oid : string) (order o : Order)
    (stamp : Z) :
  Orders st !! oid = Some o ->
  Orders (approveOrder st oid order stamp).2 !! oid
  = Some (setStatusApproved (Some stamp) o).
Proof.
  intros Ho. unfold approveOrder. rewrite Ho.
  destruct (negb (isExtraOrder order) && negb (String.eqb (userID order) ""));
    simpl; [|by rewrite lookup_insert_eq].
  destruct (users st !! userID order); simpl; by rewrite lookup_insert_eq.
Qed.

(** A click on an order that the listing shows approved does nothing,
    in either view, whatever the store holds. *)
Lemma views_no_button_when_listed_approved (st : Store)
    (listing : gmap string Order) (oid : string) (o : Order) (stamp : Z) :
  listing !! oid = Some o ->
  status o = approved ->
  ownerPanelApprove st listing oid = st
  /\ ordersTabApprove st listing oid stamp = st.
Proof.
  intros Hl Hs. unfold ownerPanelApprove, ordersTabApprove.
  by rewrite Hl, Hs.
Qed.

(** C2, as amended.  The approval handlers do not look at the status of
    the order.  On a stored order, whatever its status, they mark it
    approved; the handler of the owner view answers that the order is
    approved, and so does the handler of the owner panel unless the order
    is a plan order without customer id, on which it marks the order and
    answers that the approval failed.  On a plan order whose customer
    exists they take the quantity of the order off the balance, down to 0,
    at every call: a second call answers and decrements like the first.  On
    an extra order, or without customer, no balance is written.  The only
    guard is in the views, which carry the button of an order while the
    status they list for it is not approved: a click on an order listed as
    approved does nothing, so that once the listing shows the approval a
    second click changes nothing. *)
Theorem C2_approval_once_through_the_views (st : Store) (oid : string)
    (o : Order) (stamp : Z) (listing : gmap string Order) :
  Orders st !! oid = Some o ->
  let st1 := (ownerApproveOrder st oid).2 in
  let st2 := (approveOrder st oid o stamp).2 in
  (status <$> Orders st1 !! oid) = Some approved
  /\ (status <$> Orders st2 !! oid) = Some approved
  /\ (ownerApproveOrder st oid).1
     = (if negb (isExtraOrder o) && String.eqb (userID o) ""
        then ApproveOrderFailed else OrderApproved)
  /\ (approveOrder st oid o stamp).1 = OrderApproved
  /\ (forall u,
        isExtraOrder o = false -> userID o <> "" ->
        users st !! userID o = Some u ->
        let q := sumQty (items o) in
        let after := Z.max 0 (default 30 (mealsRemaining (plan u)) - q) in
        mealsOf st1 (userID o) = Some after
        /\ mealsOf st2 (userID o) = Some after
        /\ (ownerApproveOrder st1 oid).1 = OrderApproved
        /\ mealsOf (ownerApproveOrder st1 oid).2 (userID o)
           = Some (Z.max 0 (after - q))
        /\ (approveOrder st2 oid o stamp).1 = OrderApproved
        /\ mealsOf (approveOrder st2 oid o stamp).2 (userID o)
           = Some (Z.max 0 (after - q)))
  /\ (isExtraOrder o = true \/ userID o = "" \/ users st !! userID o = None ->
      users st1 = users st /\ users st2 = users st)
  /\ (forall st' o',
        listing !! oid = Some o' -> status o' = approved ->
        ownerPanelApprove st' listing oid = st'
        /\ ordersTabApprove st' listing oid stamp = st')
  /\ (forall o',
        listing !! oid = Some o' -> status o' <> approved ->
        ownerPanelApprove st listing oid = st1
        /\ ordersTabApprove st listing oid stamp
           = (approveOrder st oid o' stamp).2)
  /\ ownerPanelApprove st1 (Orders st1) oid = st1
  /\ ordersTabApprove st2 (Orders st2) oid stamp = st2.
Proof.
  intros Ho st1 st2.
  assert (H1 : Orders st1 !! oid = Some (setStatusApproved None o))
    by by apply ownerApproveOrder_marks_approved.
  assert (H2 : Orders st2 !! oid = Some (setStatusApproved (Some stamp) o))
    by by apply approveOrder_marks_approved.
  split; [by rewrite H1|]. split; [by rewrite H2|].
  split; [|split; [|split; [|split; [|split; [|split; [|split]]]]]].
  - unfold ownerApproveOrder. rewrite Ho.
    destruct (isExtraOrder o); [done|]. cbn [negb andb].
    destruct (String.eqb (userID o) ""); [done|].
    cbn [users]. by destruct (users st !! userID o).
  - unfold approveOrder. rewrite Ho.
    destruct (negb (isExtraOrder o) && negb (String.eqb (userID o) ""));
      [|done].
    cbn [users]. by destruct (users st !! userID o).
  - intros u Hx Hid Hu q after.
    assert (E1 : ownerApproveOrder st oid
                 = (OrderApproved,
                    {| users := <[userID o :=
                                    withPlan (decrementMeals PLAN_CAPACITY (items o)) u]>
                                  (users st);
                       Orders := <[oid := setStatusApproved None o]> (Orders st);
                       Users := Users st |}))
      by by apply ownerApproveOrder_plan_order.
    assert (E2 : approveOrder st oid o stamp
                 = (OrderApproved,
                    {| users := <[userID o :=
                                    withPlan (decrementMeals 30 (items o)) u]>
                                  (users st);
                       Orders := <[oid := setStatusApproved (Some stamp) o]>
                                   (Orders st);
                       Users := Users st |}))
      by by apply approveOrder_plan_order.
    assert (U1 : users st1 !! userID o
                 = Some (withPlan (decrementMeals PLAN_CAPACITY (items o)) u)).
    { unfold st1. rewrite E1. cbn [snd users]. apply lookup_insert_eq. }
    assert (U2 : users st2 !! userID o
                 = Some (withPlan (decrementMeals 30 (items o)) u)).
    { unfold st2. rewrite E2. cbn [snd users]. apply lookup_insert_eq. }
    rewrite (ownerApproveOrder_plan_order st1 oid (setStatusApproved None o)
               (withPlan (decrementMeals PLAN_CAPACITY (items o)) u))
      by done.
    rewrite (approveOrder_plan_order st2 oid o (setStatusApproved (Some stamp) o)
               stamp (withPlan (decrementMeals 30 (items o)) u))
      by done.
    unfold mealsOf. rewrite U1, U2. cbn [snd fst users].
    rewrite !lookup_insert_eq.
    cbn [mbind option_bind plan withPlan setStatusApproved items].
    rewrite !decrementMeals_balance. cbn [default]. unfold PLAN_CAPACITY.
    repeat split.
  - intros Hcase. unfold st1, st2, ownerApproveOrder, approveOrder. rewrite Ho.
    destruct (isExtraOrder o) eqn:Hx; [done|]. cbn [negb andb].
    destruct (String.eqb_spec (userID o) "") as [Hid|Hid]; [done|].
    cbn [users negb]. destruct Hcase as [?|[?|Hu]]; [done|done|].
    by rewrite Hu.
  - intros st' o' Hl Hs. by apply (views_no_button_when_listed_approved _ _ _ o').
  - intros o' Hl Hs. unfold ownerPanelApprove, ordersTabApprove. rewrite Hl.
    by destruct (status o').
  - by apply (views_no_button_when_listed_approved _ _ _ (setStatusApproved None o)).
  - by apply (views_no_button_when_listed_approved _ _ _
                (setStatusApproved (Some stamp) o)).
Qed.

(** Scenario C: the order of 5 units on a balance of 30.  One call leaves
    25 and a second call 20; through a view whose listing shows the
    approval, the second click leaves the store as the first left it. *)
Lemma C2_approval_once_through_the_views_witness :
  let o := orderOf [line "paneer-sandwich" 2; line "melon-mint" 3] false pending 10 in
  let st1 := (ownerApproveOrder scenarioC "o1").2 in
  let st2 := (approveOrder scenarioC "o1" o 11).2 in
  (status <$> Orders st1 !! "o1") = Some approved
  /\ (status <$> Orders st2 !! "o1") = Some approved
  /\ mealsOf st1 "u1" = Some 25
  /\ mealsOf st2 "u1" = Some 25
  /\ mealsOf (ownerApproveOrder st1 "o1").2 "u1" = Some 20
  /\ mealsOf (approveOrder st2 "o1" o 11).2 "u1" = Some 20
  /\ ownerPanelApprove scenarioC (Orders scenarioC) "o1" = st1
  /\ ownerPanelApprove st1 (Orders st1) "o1" = st1
  /\ ordersTabApprove st2 (Orders st2) "o1" 11 = st2.
Proof.
  intros o st1 st2.
  assert (Ho : Orders scenarioC !! "o1" = Some o) by reflexivity.
  destruct (C2_approval_once_through_the_views scenarioC "o1" o 11
              (Orders scenarioC) Ho)
    as (Hs1 & Hs2 & _ & _ & Hbal & _ & _ & Hclick & Hp & Ht).
  assert (Hid : userID o <> "") by discriminate.
  destruct (Hbal (userWith (paidPlan 0 100 30)) eq_refl Hid eq_refl)
    as (B1 & B2 & _ & B3 & _ & B4).
  assert (Hst : status o <> approved) by discriminate.
  destruct (Hclick o Ho Hst) as [C1 _].
  repeat split; assumption.
Defined.

(** C2 as stated fails on the handlers: in scenario C a second call on
    the order, already approved, does not fail; it answers that the order
    is approved once more and takes the 5 units off the balance again.  It
    fails through the views too.  A listing that has not yet received the
    approval still carries the button, and the click takes the 5 units off
    once more.  A cancelled order is not pending and carries the button:
    the click approves it and takes its units off the balance. *)
Lemma C2_counterexample :
  let st1 := (ownerApproveOrder scenarioC "o1").2 in
  let o := orderOf [line "paneer-sandwich" 2; line "melon-mint" 3] false pending 10 in
  let st1' := (approveOrder scenarioC "o1" o 11).2 in
  (status <$> Orders scenarioCancelled !! "o1") = Some cancelled
  /\ (status <$> Orders (ownerPanelApprove scenarioCancelled
                           (Orders scenarioCancelled) "o1") !! "o1")
     = Some approved
  /\ mealsOf (ownerPanelApprove scenarioCancelled (Orders scenarioCancelled) "o1")
       "u1" = Some 25
  /\ mealsOf scenarioC "u1" = Some 30
  /\ (status <$> Orders st1 !! "o1") = Some approved
  /\ mealsOf st1 "u1" = Some 25
  /\ (ownerApproveOrder st1 "o1").1 = OrderApproved
  /\ mealsOf (ownerApproveOrder st1 "o1").2 "u1" = Some 20
  /\ (status <$> Orders st1' !! "o1") = Some approved
  /\ mealsOf st1' "u1" = Some 25
  /\ (approveOrder st1' "o1" o 12).1 = OrderApproved
  /\ mealsOf (approveOrder st1' "o1" o 12).2 "u1" = Some 20
  /\ mealsOf (ownerPanelApprove st1 (Orders scenarioC) "o1") "u1" = Some 20
  /\ mealsOf (ordersTabApprove st1' (Orders scenarioC) "o1" 12) "u1" = Some 20.
Proof. repeat split; vm_compute; reflexivity. Qed.

(** ** The invariant of the balance *)

Lemma planInvariant_decrementMeals (dflt : Z) (its : list Item) (p : Plan) :
  linesOk its -> planInvariant p -> planInvariant (decrementMeals dflt its p).
Proof.
  intros Hq (r & t & Hr & Ht & Hrt). exists (Z.max 0 (r - sumQty its)), t.
  rewrite decrementMeals_balance, Hr. simpl. split; [done|]. split; [done|].
  apply sumQty_nonneg in Hq. lia.
Qed.

Lemma planInvariant_renewPlanFields (p : Plan) :
  planInvariant p -> planInvariant (renewPlanFields p).
Proof.
  intros (r & t & Hr & Ht & Hrt). exists 0, t. simpl. repeat split; try done; lia.
Qed.

Lemma planInvariant_activated (p : Plan) :
  mealsRemaining p = Some 30 -> totalMeals p = Some 30 -> planInvariant p.
Proof. intros Hr Ht. exists 30, 30. repeat split; try done; lia. Qed.

(** Writing the document of one customer keeps the invariant of [uid] when
    the new plan of that customer satisfies it as soon as the old one did. *)
Lemma holdsFor_update (st : Store) (k uid : string) (u u' : User)
    (orders' : gmap string Order) (legacy' : gmap string LegacyUser) :
  users st !! k = Some u ->
  (planInvariant (plan u) -> planInvariant (plan u')) ->
  holdsFor st uid ->
  holdsFor {| users := <[k := u']> (users st); Orders := orders';
              Users := legacy' |} uid.
Proof.
  intros Hk Hf (u0 & Hu0 & Hinv). unfold holdsFor. simpl.
  destruct (decide (k = uid)) as [->|Hne].
  - exists u'. rewrite lookup_insert_eq. split; [done|].
    apply Hf. congruence.
  - exists u0. by rewrite lookup_insert_ne.
Qed.

Lemma holdsFor_same_users (st st' : Store) (uid : string) :
  users st' = users st -> holdsFor st uid -> holdsFor st' uid.
Proof. intros Heq (u & Hu & Hinv). exists u. by rewrite Heq. Qed.

(** No operation touches the lines of a stored order. *)
Lemma step_ordersOk (LocalTZA : Z -> bool -> Z) (monthStartDay : Z -> Z) (st : Store) (op : Op) :
  ordersOk st -> ordersOk (step LocalTZA monthStartDay st op).
Proof.
  intros Hok.
  assert (Happ : forall oid o stamp users' legacy',
             Orders st !! oid = Some o ->
             ordersOk {| users := users';
                         Orders := <[oid := setStatusApproved stamp o]> (Orders st);
                         Users := legacy' |}).
  { intros oid o stamp users' legacy' Ho. unfold ordersOk. simpl.
    apply map_Forall_insert_2; [|done]. simpl.
    exact (map_Forall_lookup_1 _ _ _ _ Hok Ho). }
  destruct op as [uid user start stamp|uid sd|oid order stamp|oid
                 |orderID uid its|uid]; simpl.
  - unfold approvePayment. by destruct (users st !! uid).
  - unfold ownerApprovePlan. by destruct (users st !! uid).
  - unfold approveOrder. destruct (Orders st !! oid) as [o|] eqn:Ho; simpl; [|done].
    destruct (negb (isExtraOrder order) && negb (String.eqb (userID order) ""));
      simpl; [|by apply Happ].
    destruct (users st !! userID order); simpl; by apply Happ.
  - unfold ownerApproveOrder. destruct (Orders st !! oid) as [o|] eqn:Ho; simpl; [|done].
    destruct (isExtraOrder o); simpl; [by apply Happ|].
    destruct (String.eqb (userID o) ""); simpl; [by apply Happ|].
    destruct (users st !! userID o); simpl; by apply Happ.
  - unfold Functions.approveOrder.
    destruct (Orders st !! orderID) as [o|] eqn:Ho; simpl; [|done].
    destruct (Users st !! uid); simpl; by apply Happ.
  - unfold handleRenewPlan. by destruct (users st !! uid).
Qed.

(** Each operation keeps the invariant of the plan of a customer. *)
Lemma step_holdsFor (LocalTZA : Z -> bool -> Z) (monthStartDay : Z -> Z) (st : Store)
    (op : Op) (uid : string) :
  ordersOk st -> opOk op -> holdsFor st uid ->
  holdsFor (step LocalTZA monthStartDay st op) uid.
Proof.
  intros Hok Hop Hinv.
  destruct op as [k user start stamp|k sd|oid order stamp|oid
                 |orderID k its|k]; simpl.
  - unfold approvePayment. destruct (users st !! k) as [u|] eqn:Hu; simpl; [|done].
    apply (holdsFor_update st k uid u); [done| |done].
    intros _. by apply planInvariant_activated.
  - unfold ownerApprovePlan. destruct (users st !! k) as [u|] eqn:Hu; simpl; [|done].
    apply (holdsFor_update st k uid u); [done| |done].
    intros _. by apply planInvariant_activated.
  - unfold approveOrder. destruct (Orders st !! oid) as [o|] eqn:Ho; simpl; [|done].
    destruct (negb (isExtraOrder order) && negb (String.eqb (userID order) ""));
      simpl; [|by apply (holdsFor_same_users st)].
    destruct (users st !! userID order) as [u|] eqn:Hu; simpl;
      [|by apply (holdsFor_same_users st)].
    apply (holdsFor_update st (userID order) uid u); [done| |done].
    simpl. by apply planInvariant_decrementMeals.
  - unfold ownerApproveOrder. destruct (Orders st !! oid) as [o|] eqn:Ho; simpl; [|done].
    destruct (isExtraOrder o); simpl; [by apply (holdsFor_same_users st)|].
    destruct (String.eqb (userID o) ""); simpl; [by apply (holdsFor_same_users st)|].
    destruct (users st !! userID o) as [u|] eqn:Hu; simpl;
      [|by apply (holdsFor_same_users st)].
    apply (holdsFor_update st (userID o) uid u); [done| |done].
    simpl. apply planInvariant_decrementMeals.
    exact (map_Forall_lookup_1 _ _ _ _ Hok Ho).
  - apply (holdsFor_same_users st); [|done].
    apply functions_approveOrder_leaves_users.
  - unfold handleRenewPlan. destruct (users st !! k) as [u|] eqn:Hu; simpl; [|done].
    apply (holdsFor_update st k uid u); [done| |done].
    simpl. apply planInvariant_renewPlanFields.
Qed.

Lemma run_holdsFor (LocalTZA : Z -> bool -> Z) (monthStartDay : Z -> Z) (ops : list Op)
    (st : Store) (uid : string) :
  ordersOk st -> Forall opOk ops -> holdsFor st uid ->
  holdsFor (run LocalTZA monthStartDay st ops) uid.
Proof.
  intros Hok Hops. revert st Hok.
  induction Hops as [|op rest Hop _ IH]; intros st Hok Hinv; [done|].
  simpl. apply IH.
  - by apply step_ordersOk.
  - by apply step_holdsFor.
Qed.

(** A payment approval establishes the invariant of the customer,
    whatever the plan was. *)
Lemma activation_holdsFor (LocalTZA : Z -> bool -> Z) (monthStartDay : Z -> Z) (st : Store)
    (uid : string) (u snap : User) (start stamp : Z) :
  users st !! uid = Some u ->
  holdsFor (step LocalTZA monthStartDay st (OpApprovePayment uid snap start stamp)) uid
  /\ holdsFor (step LocalTZA monthStartDay st (OpOwnerApprovePlan uid start)) uid.
Proof.
  intros Hu. simpl. unfold approvePayment, ownerApprovePlan. rewrite Hu. simpl.
  split; eexists; (split; [apply lookup_insert_eq|]);
    by apply planInvariant_activated.
Qed.

(** C3.  The invariant is kept by the handlers that write the plans of
    the customers (see [run_holdsFor] and [activation_holdsFor]) and broken
    by [approveOrder] of functions.js on the plan it writes.  From a balance
    that is not negative, it leaves a negative balance as soon as the lines
    named Healthy Meal that it is given carry more units than the balance;
    nothing limits a later call, which lowers it further. *)
Theorem C3_functions_approveOrder_breaks_invariant (st : Store)
    (oid uid : string) (o : Order) (ud : LegacyUser) (its : list Item) :
  Orders st !! oid = Some o ->
  Users st !! uid = Some ud ->
  let r := legacyMealsRemaining (legacyPlan ud) in
  let q := sumQty (List.filter (namedAs "Healthy Meal") its) in
  0 <= r < q ->
  let st1 := Functions.storeOf (Functions.approveOrder st oid uid its) in
  let st2 := Functions.storeOf (Functions.approveOrder st1 oid uid its) in
  legacyMealsOf st uid = Some r
  /\ legacyMealsOf st1 uid = Some (r - q)
  /\ r - q < 0
  /\ legacyMealsOf st2 uid = Some (r - q - q)
  /\ r - q - q < r - q.
Proof.
  intros Ho Hu r q Hrq st1 st2.
  assert (Hstep : forall s o0 ud0,
             Orders s !! oid = Some o0 -> Users s !! uid = Some ud0 ->
             let s' := Functions.storeOf (Functions.approveOrder s oid uid its) in
             Orders s' !! oid = Some (setStatusApproved None o0)
             /\ Users s' !! uid
                = Some {| legacyPlan :=
                            {| legacyMealsRemaining :=
                                 legacyMealsRemaining (legacyPlan ud0) - q;
                               legacyChaiRemaining :=
                                 legacyChaiRemaining (legacyPlan ud0)
                                 - sumQty (List.filter (namedAs "Chai") its) |} |}).
  { intros s o0 ud0 Ho0 Hu0. unfold Functions.approveOrder. rewrite Ho0.
    cbn [Users]. rewrite Hu0. cbn [Functions.storeOf Orders Users].
    rewrite !lookup_insert_eq, fold_decrementLine. done. }
  destruct (Hstep st o ud Ho Hu) as [Ho1 Hu1].
  destruct (Hstep st1 _ _ Ho1 Hu1) as [_ Hu2].
  unfold legacyMealsOf. fold st1 in Hu1. fold st2 in Hu2.
  rewrite Hu, Hu1, Hu2. cbn [mbind option_bind legacyPlan legacyMealsRemaining].
  repeat split; lia.
Qed.

(** One meal left on the document of ["Users"] and two Healthy Meals
    approved: -1, then -3. *)
Lemma C3_functions_approveOrder_breaks_invariant_witness :
  let st1 := Functions.storeOf
               (Functions.approveOrder legacyStore "o1" "u1" (healthyMeals 2)) in
  let st2 := Functions.storeOf
               (Functions.approveOrder st1 "o1" "u1" (healthyMeals 2)) in
  legacyMealsOf legacyStore "u1" = Some 1
  /\ legacyMealsOf st1 "u1" = Some (-1)
  /\ legacyMealsOf st2 "u1" = Some (-3).
Proof.
  intros st1 st2.
  assert (Hrq : 0 <= 1 < sumQty (List.filter (namedAs "Healthy Meal")
                                   (healthyMeals 2)))
    by (vm_compute; split; [discriminate | reflexivity]).
  destruct (C3_functions_approveOrder_breaks_invariant legacyStore "o1" "u1"
              (orderOf (healthyMeals 2) false pending 10)
              {| legacyPlan := {| legacyMealsRemaining := 1;
                                  legacyChaiRemaining := 12 |} |}
              (healthyMeals 2) eq_refl eq_refl Hrq)
    as (H0 & H1 & _ & H2 & _).
  split; [exact H0|]. split; [exact H1|]. exact H2.
Defined.

(** * Further properties of the code

    ** The total of the cart *)

Lemma foldr_add_perm {A} (f : A -> Z) (l1 l2 : list A) :
  l1 ≡ₚ l2 ->
  foldr (fun x s => f x + s) 0 l1 = foldr (fun x s => f x + s) 0 l2.
Proof.
  induction 1 as [|x l1 l2 _ IH|x y l|l1 l2 l3 _ IH1 _ IH2]; simpl.
  - done.
  - by rewrite IH.
  - lia.
  - by rewrite IH1.
Qed.

Lemma cartTotalQty_foldr (cart : gmap string Z) :
  cartTotalQty cart = foldr (fun e s => e.2 + s) 0 (map_to_list cart).
Proof.
  unfold cartTotalQty. rewrite fold_left_fmap.
  rewrite (fold_left_add_acc (fun e : string * Z => e.2)). lia.
Qed.

Lemma cartTotalQty_empty : cartTotalQty ∅ = 0.
Proof. unfold cartTotalQty. by rewrite map_to_list_empty. Qed.

Lemma cartTotalQty_insert_fresh (cart : gmap string Z) (k : string) (v : Z) :
  cart !! k = None -> cartTotalQty (<[k := v]> cart) = v + cartTotalQty cart.
Proof.
  intros Hk. rewrite !cartTotalQty_foldr.
  by rewrite (foldr_add_perm _ _ _ (map_to_list_insert cart k v Hk)).
Qed.

Lemma cartTotalQty_delete (cart : gmap string Z) (k : string) :
  cartTotalQty (delete k cart) = cartTotalQty cart - default 0 (cart !! k).
Proof.
  destruct (cart !! k) as [y|] eqn:Hk; simpl.
  - rewrite !cartTotalQty_foldr.
    rewrite <- (foldr_add_perm _ _ _ (map_to_list_delete cart k y Hk)). simpl. lia.
  - rewrite delete_id by done. lia.
Qed.

Lemma cartTotalQty_insert (cart : gmap string Z) (k : string) (v : Z) :
  cartTotalQty (<[k := v]> cart) = cartTotalQty cart - default 0 (cart !! k) + v.
Proof.
  rewrite <- insert_delete_eq.
  rewrite cartTotalQty_insert_fresh by apply lookup_delete_eq.
  rewrite cartTotalQty_delete. lia.
Qed.

Lemma cartTotalQty_nonneg (cart : gmap string Z) :
  cartOk cart -> 0 <= cartTotalQty cart.
Proof.
  intros Hok. rewrite cartTotalQty_foldr.
  assert (H : Forall (fun e : string * Z => 0 <= e.2) (map_to_list cart)).
  { apply Forall_forall. intros [k q] Hin. apply elem_of_map_to_list in Hin.
    exact (map_Forall_lookup_1 _ _ _ _ Hok Hin). }
  induction H as [|e l He _ IH]; simpl; lia.
Qed.

Lemma addToCart_result (profile : option User) (orders : list Order) (now : Z)
    (cart : gmap string Z) (itemId : string) :
  (exists a, addToCart profile orders now cart itemId = (Some a, cart))
  \/ addToCart profile orders now cart itemId
     = (None, <[itemId := default 0 (cart !! itemId) + 1]> cart).
Proof.
  unfold addToCart.
  repeat match goal with
         | |- context [if ?b then _ else _] => destruct b
         end; eauto.
Qed.

(** X1.  A successful [addToCart] raises the total of the cart by exactly
    one. *)
Theorem X1_addToCart_total (profile : option User) (orders : list Order)
    (now : Z) (cart cart' : gmap string Z) (itemId : string) :
  addToCart profile orders now cart itemId = (None, cart') ->
  cartTotalQty cart' = cartTotalQty cart + 1.
Proof.
  intros H.
  destruct (addToCart_result profile orders now cart itemId) as [[a Ha]|Ha];
    rewrite Ha in H; [discriminate|].
  injection H as <-. rewrite cartTotalQty_insert. lia.
Qed.

Lemma X1_addToCart_total_witness :
  cartTotalQty {[ "paneer-sandwich" := 3; "melon-mint" := 1 ]}
  = cartTotalQty {[ "paneer-sandwich" := 2; "melon-mint" := 1 ]} + 1.
Proof.
  apply (X1_addToCart_total (Some (userWith noPlan)) [] 0
           {[ "paneer-sandwich" := 2; "melon-mint" := 1 ]}
           {[ "paneer-sandwich" := 3; "melon-mint" := 1 ]} "paneer-sandwich").
  vm_compute. reflexivity.
Defined.

(** [removeFromCart] on a cart without negative quantity never raises the
    total. *)
Lemma removeFromCart_total_le (cart : gmap string Z) (itemId : string) :
  cartOk cart -> cartTotalQty (removeFromCart cart itemId) <= cartTotalQty cart.
Proof.
  intros Hok. unfold removeFromCart.
  destruct (cart !! itemId) as [n|] eqn:Hn; [|lia].
  pose proof (map_Forall_lookup_1 _ _ _ _ Hok Hn) as Hpos. simpl in Hpos.
  destruct (n =? 0); [lia|].
  destruct (Z.max 0 (n - 1) =? 0).
  - rewrite cartTotalQty_delete, Hn. simpl. lia.
  - rewrite cartTotalQty_insert, Hn. simpl. lia.
Qed.

Lemma cartStep_within_capacity (cap : Z) (cart : gmap string Z)
    (click : Render * CartOp) :
  clickWithin cap click ->
  cartOk cart ->
  cartTotalQty cart <= cap ->
  cartOk (cartStep cart click) /\ cartTotalQty (cartStep cart click) <= cap.
Proof.
  destruct click as [[profile orders now] [itemId|itemId]];
    unfold clickWithin, cartStep; cbn [fst snd r_profile r_orders r_now];
    intros Hclick Hok Hle.
  - destruct Hclick as [Hp Hcap]. split; [by apply addToCart_cartOk|].
    unfold addToCart. rewrite Hp.
    destruct (planRemaining profile orders now <=? 0); [done|].
    destruct (default 0 (itemPlanCounts profile orders now !! itemId) >=? PER_ITEM_MAX);
      [done|].
    destruct (Z.gtb_spec (cartTotalQty cart + 1) (planRemaining profile orders now));
      [done|].
    cbn [snd]. rewrite cartTotalQty_insert.
    lia.
  - split; [by apply removeFromCart_cartOk|].
    pose proof (removeFromCart_total_le cart itemId Hok). lia.
Qed.

(** X2.  The cart outlives the renders: each click of the Add and Remove
    buttons of the catalog cards reads the profile and the orders of its
    own render.  When every click on Add falls on a render with a paid plan
    whose remaining capacity is no more than the one checkout sees, as when
    the profile and the orders do not change in between, a cart filled from
    empty never holds more units than that capacity, and the order that
    checkout places for it is a plan order, not an extra one. *)
Theorem X2_catalog_cart_within_capacity (u : User) (orders : list Order)
    (now : Z) (clicks : list (Render * CartOp)) (uid : string) (stamp : Z) :
  planPaid (Some u) = true ->
  Forall (clickWithin (planRemaining (Some u) orders now)) clicks ->
  let cart := cartRun ∅ clicks in
  cartTotalQty cart <= planRemaining (Some u) orders now
  /\ (cart ≠ ∅ ->
      exists o,
        handleCheckout (Some u) orders now uid stamp cart
          = (OrderPlaced, Some o, ∅)
        /\ isExtraOrder o = false).
Proof.
  intros Hp Hclicks cart.
  assert (Hinv : cartOk cart
                 /\ cartTotalQty cart <= planRemaining (Some u) orders now).
  { unfold cart, cartRun.
    assert (H0 : cartOk ∅ /\ cartTotalQty ∅ <= planRemaining (Some u) orders now).
    { split; [apply map_Forall_empty|]. rewrite cartTotalQty_empty.
      unfold planRemaining. lia. }
    revert H0. generalize (∅ : gmap string Z).
    induction Hclicks as [|click clicks Hclick _ IH]; intros c [Hok Hle];
      cbn [fold_left]; [done|].
    apply IH. by apply cartStep_within_capacity. }
  destruct Hinv as [_ Hle]. split; [done|].
  intros Hne. eexists. split; [by apply handleCheckout_places|].
  cbn [isExtraOrder]. rewrite Hp. apply Z.leb_le in Hle. by rewrite Hle.
Qed.

Lemma X2_catalog_cart_within_capacity_witness :
  let u := userWith (paidPlan 0 100 30) in
  let orders := [orderOf [line "tofu-sandwich" 9] false pending 10] in
  let r1 := {| r_profile := Some u; r_orders := orders; r_now := 40 |} in
  let r2 := {| r_profile := Some u; r_orders := orders; r_now := 50 |} in
  let cart := cartRun ∅
                [(r1, CartAdd "paneer-sandwich"); (r1, CartAdd "melon-mint");
                 (r2, CartRemove "paneer-sandwich"); (r2, CartAdd "melon-mint")] in
  cartTotalQty cart <= planRemaining (Some u) orders 50
  /\ (cart ≠ ∅ ->
      exists o,
        handleCheckout (Some u) orders 50 "u1" 60 cart = (OrderPlaced, Some o, ∅)
        /\ isExtraOrder o = false).
Proof.
  intros u orders r1 r2.
  apply (X2_catalog_cart_within_capacity u orders 50
           [(r1, CartAdd "paneer-sandwich"); (r1, CartAdd "melon-mint");
            (r2, CartRemove "paneer-sandwich"); (r2, CartAdd "melon-mint")]
           "u1" 60).
  - reflexivity.
  - repeat (apply Forall_cons; split); try apply Forall_nil;
      unfold clickWithin; cbn [fst snd]; try exact I;
      (split; [reflexivity | apply Z.leb_le; vm_compute; reflexivity]).
Defined.

(** Without that condition the cart can exceed the capacity: two units are
    added while 2 remain, an order of 2 units placed elsewhere then reaches
    the orders of the customer, and checkout, which sees 0 remaining, places
    the cart as an extra order. *)
Lemma cart_outlives_render :
  let u := userWith (paidPlan 0 100 30) in
  let orders0 := [orderOf [line "tofu-sandwich" 28] false pending 10] in
  let orders1 := orderOf [line "melon-mint" 2] false pending 45 :: orders0 in
  let r0 := {| r_profile := Some u; r_orders := orders0; r_now := 40 |} in
  let cart := cartRun ∅ [(r0, CartAdd "paneer-sandwich");
                         (r0, CartAdd "melon-mint")] in
  planRemaining (Some u) orders0 40 = 2
  /\ cartTotalQty cart = 2
  /\ planRemaining (Some u) orders1 50 = 0
  /\ (isExtraOrder <$> (handleCheckout (Some u) orders1 50 "u1" 60 cart).1.2)
     = Some true.
Proof. repeat split; vm_compute; reflexivity. Qed.

(** X3.  The minus button of a catalog card undoes its plus button: where
    the line of the item is absent or positive, a successful [addToCart]
    followed by [removeFromCart] gives the cart back. *)
Theorem X3_removeFromCart_undoes_addToCart (profile : option User)
    (orders : list Order) (now : Z) (cart cart' : gmap string Z)
    (itemId : string) :
  (forall n, cart !! itemId = Some n -> 0 < n) ->
  addToCart profile orders now cart itemId = (None, cart') ->
  removeFromCart cart' itemId = cart.
Proof.
  intros Hpos H.
  destruct (addToCart_result profile orders now cart itemId) as [[a Ha]|Ha];
    rewrite Ha in H; [discriminate|].
  injection H as <-. unfold removeFromCart. rewrite lookup_insert_eq.
  destruct (cart !! itemId) as [n|] eqn:Hn; simpl.
  - specialize (Hpos n eq_refl).
    destruct (Z.eqb_spec (n + 1) 0); [lia|].
    destruct (Z.eqb_spec (Z.max 0 (n + 1 - 1)) 0); [lia|].
    rewrite insert_insert_eq. apply insert_id.
    rewrite Hn. f_equal. lia.
  - by apply delete_insert_id.
Qed.

Lemma X3_removeFromCart_undoes_addToCart_witness :
  removeFromCart {[ "paneer-sandwich" := 3; "melon-mint" := 1 ]} "paneer-sandwich"
  = {[ "paneer-sandwich" := 2; "melon-mint" := 1 ]}.
Proof.
  apply (X3_removeFromCart_undoes_addToCart (Some (userWith noPlan)) [] 0
           {[ "paneer-sandwich" := 2; "melon-mint" := 1 ]}
           {[ "paneer-sandwich" := 3; "melon-mint" := 1 ]} "paneer-sandwich").
  - intros n Hn. vm_compute in Hn. injection Hn as <-. lia.
  - vm_compute. reflexivity.
Defined.

(** X4.  [removeFromCart] on a line of [n >= 1] units takes one unit off:
    the line goes to [n - 1], and disappears from the cart when that is 0;
    the other lines stay and the total drops by exactly one. *)
Theorem X4_removeFromCart_takes_one_unit (cart : gmap string Z)
    (itemId : string) (n : Z) :
  cart !! itemId = Some n ->
  1 <= n ->
  removeFromCart cart itemId !! itemId = (if n =? 1 then None else Some (n - 1))
  /\ (forall j, j <> itemId -> removeFromCart cart itemId !! j = cart !! j)
  /\ cartTotalQty (removeFromCart cart itemId) = cartTotalQty cart - 1.
Proof.
  intros Hn Hpos. unfold removeFromCart. rewrite Hn.
  destruct (Z.eqb_spec n 0); [lia|].
  replace (Z.max 0 (n - 1)) with (n - 1) by lia.
  destruct (Z.eqb_spec (n - 1) 0), (Z.eqb_spec n 1); try lia.
  - rewrite lookup_delete_eq, cartTotalQty_delete, Hn. simpl.
    repeat split; [|lia]. intros j Hj. by apply lookup_delete_ne.
  - rewrite lookup_insert_eq, cartTotalQty_insert, Hn. simpl.
    repeat split; [|lia]. intros j Hj. by apply lookup_insert_ne.
Qed.

Lemma X4_removeFromCart_takes_one_unit_witness :
  let cart : gmap string Z := {[ "paneer-sandwich" := 1; "melon-mint" := 2 ]} in
  removeFromCart cart "paneer-sandwich" !! "paneer-sandwich"
    = (if 1 =? 1 then None else Some (1 - 1))
  /\ (forall j, j <> "paneer-sandwich" ->
                removeFromCart cart "paneer-sandwich" !! j = cart !! j)
  /\ cartTotalQty (removeFromCart cart "paneer-sandwich") = cartTotalQty cart - 1.
Proof.
  apply (X4_removeFromCart_takes_one_unit
           {[ "paneer-sandwich" := 1; "melon-mint" := 2 ]} "paneer-sandwich" 1).
  - vm_compute. reflexivity.
  - lia.
Defined.

(** X5.  [removeFromCart] changes nothing where the item has no line or a
    line at 0, and it never writes a line at 0: a touched line ends
    positive or absent. *)
Theorem X5_removeFromCart_edges (cart : gmap string Z) (itemId : string) :
  (cart !! itemId = None \/ cart !! itemId = Some 0 ->
   removeFromCart cart itemId = cart)
  /\ (cart !! itemId <> Some 0 ->
      forall q, removeFromCart cart itemId !! itemId = Some q -> 0 < q).
Proof.
  unfold removeFromCart. split.
  - intros [H|H]; by rewrite H.
  - intros Hnz q. destruct (cart !! itemId) as [n|] eqn:Hn; [|by rewrite Hn].
    destruct (Z.eqb_spec n 0) as [->|Hn0]; [done|].
    destruct (Z.eqb_spec (Z.max 0 (n - 1)) 0).
    + by rewrite lookup_delete_eq.
    + rewrite lookup_insert_eq. intros [= <-]. lia.
Qed.

(** X6.  The two buttons of a row of the cart box keep the row: the set of
    lines of the cart is unchanged, the minus button leaving a line of one
    unit in the cart at 0, and the line ends between 0 and 10. *)
Theorem X6_cartBox_buttons_keep_rows (cart : gmap string Z) (itemId : string)
    (qty : Z) :
  cart !! itemId = Some qty ->
  dom (cartBoxMinus cart itemId) = dom cart
  /\ dom (cartBoxPlus cart itemId) = dom cart
  /\ cartBoxMinus cart itemId !! itemId = Some (Z.max 0 (Z.min 10 (qty - 1)))
  /\ cartBoxPlus cart itemId !! itemId = Some (Z.max 0 (Z.min 10 (qty + 1)))
  /\ (qty <= 1 -> cartBoxMinus cart itemId !! itemId = Some 0).
Proof.
  intros Hq. unfold cartBoxMinus, cartBoxPlus, setCartQty. rewrite Hq.
  assert (Hdom : forall v : Z, dom (<[itemId := v]> cart) = dom cart).
  { intros v. rewrite dom_insert_L. apply subseteq_union_1_L.
    apply singleton_subseteq_l, elem_of_dom. eauto. }
  rewrite !Hdom, !lookup_insert_eq.
  repeat split; try (f_equal; lia). intros Hle. f_equal. lia.
Qed.

Lemma X6_cartBox_buttons_keep_rows_witness :
  let cart : gmap string Z := {[ "paneer-sandwich" := 1; "melon-mint" := 10 ]} in
  dom (cartBoxMinus cart "paneer-sandwich") = dom cart
  /\ dom (cartBoxPlus cart "paneer-sandwich") = dom cart
  /\ cartBoxMinus cart "paneer-sandwich" !! "paneer-sandwich"
     = Some (Z.max 0 (Z.min 10 (1 - 1)))
  /\ cartBoxPlus cart "paneer-sandwich" !! "paneer-sandwich"
     = Some (Z.max 0 (Z.min 10 (1 + 1)))
  /\ (1 <= 1 -> cartBoxMinus cart "paneer-sandwich" !! "paneer-sandwich" = Some 0).
Proof.
  apply (X6_cartBox_buttons_keep_rows
           {[ "paneer-sandwich" := 1; "melon-mint" := 10 ]} "paneer-sandwich" 1).
  vm_compute. reflexivity.
Defined.

(** X7.  [setCartQty] moves the total of the cart by the difference between
    the clamped quantity and the old one of the line. *)
Theorem X7_setCartQty_total (cart : gmap string Z) (itemId : string) (qty : Z) :
  cartTotalQty (setCartQty cart itemId qty)
  = cartTotalQty cart - default 0 (cart !! itemId) + Z.max 0 (Z.min 10 qty).
Proof. unfold setCartQty. apply cartTotalQty_insert. Qed.

(** X8.  Checkout places an order exactly when the profile is loaded and
    the cart has a line; otherwise it answers with the alert of the missing
    part, the profile first, and leaves the cart as it is.  When it places
    the order it empties the cart. *)
Theorem X8_handleCheckout_refusals (profile : option User) (orders : list Order)
    (now : Z) (uid : string) (stamp : Z) (cart : gmap string Z) :
  (is_Some (handleCheckout profile orders now uid stamp cart).1.2
   <-> is_Some profile /\ cart ≠ ∅)
  /\ (profile = None ->
      handleCheckout profile orders now uid stamp cart
      = (ProfileNotLoaded, None, cart))
  /\ (is_Some profile -> cart = ∅ ->
      handleCheckout profile orders now uid stamp cart = (CartIsEmpty, None, cart))
  /\ (is_Some (handleCheckout profile orders now uid stamp cart).1.2 ->
      (handleCheckout profile orders now uid stamp cart).2 = ∅).
Proof.
  destruct profile as [u|].
  - destruct (decide (cart = ∅)) as [->|Hne].
    + assert (H : handleCheckout (Some u) orders now uid stamp ∅
                  = (CartIsEmpty, None, ∅)).
      { unfold handleCheckout, cartItems. by rewrite map_to_list_empty. }
      rewrite H. simpl.
      repeat split; try done; try (by intros [? ?]); by intros [_ ?].
    + rewrite (handleCheckout_places u orders now uid stamp cart Hne). simpl.
      repeat split; eauto; try done.
  - simpl.
    repeat split; try done; try (by intros [? ?]); by intros [[? ?] _].
Qed.

(** X9.  Checkout does not look at the quantities: a cart whose lines are
    all at 0, as the minus button of the cart box leaves them, is not empty
    for it, and it places an order of 0 units for a total of 0, which on a
    paid plan is a plan order. *)
Theorem X9_checkout_of_zero_lines (u : User) (orders : list Order) (now : Z)
    (uid : string) (stamp : Z) (cart : gmap string Z) :
  cart ≠ ∅ ->
  map_Forall (fun _ n => n = 0) cart ->
  exists o,
    handleCheckout (Some u) orders now uid stamp cart = (OrderPlaced, Some o, ∅)
    /\ totalQty o = 0
    /\ totalPrice o = 0
    /\ length (items o) = size cart
    /\ isExtraOrder o = negb (planPaid (Some u)).
Proof.
  intros Hne Hz. eexists. split; [by apply handleCheckout_places|].
  assert (Hl : Forall (fun e : string * Z => e.2 = 0) (map_to_list cart)).
  { apply Forall_forall. intros [k q] Hin. apply elem_of_map_to_list in Hin.
    exact (map_Forall_lookup_1 _ _ _ _ Hz Hin). }
  assert (Hq : cartTotalQty cart = 0).
  { rewrite cartTotalQty_foldr.
    induction Hl as [|e l He _ IH]; simpl in *; [done|]. by rewrite He, IH. }
  cbn [totalQty totalPrice items isExtraOrder]. rewrite Hq.
  split; [done|]. split; [|split].
  - rewrite fold_left_add_acc, Z.add_0_l. unfold cartItems.
    induction Hl as [|e l He _ IH]; [done|].
    rewrite fmap_cons. cbn [foldr quantity price]. by rewrite He, IH.
  - unfold cartItems. by rewrite length_fmap, length_map_to_list.
  - destruct (planPaid (Some u)); simpl; [|done].
    unfold planRemaining.
    by destruct (Z.leb_spec 0 (Z.max 0 (PLAN_CAPACITY - planUsedCount (Some u) orders now)));
      [|lia].
Qed.

Lemma X9_checkout_of_zero_lines_witness :
  let cart := cartBoxMinus {[ "paneer-sandwich" := 1 ]} "paneer-sandwich" in
  exists o,
    handleCheckout (Some (userWith (paidPlan 0 100 30))) [] 50 "u1" 60 cart
      = (OrderPlaced, Some o, ∅)
    /\ totalQty o = 0
    /\ totalPrice o = 0
    /\ length (items o) = size cart
    /\ isExtraOrder o = negb (planPaid (Some (userWith (paidPlan 0 100 30)))).
Proof.
  apply (X9_checkout_of_zero_lines (userWith (paidPlan 0 100 30)) [] 50 "u1" 60
           (cartBoxMinus {[ "paneer-sandwich" := 1 ]} "paneer-sandwich")).
  - intros H.
    apply (f_equal (fun m : gmap string Z => m !! "paneer-sandwich")) in H.
    vm_compute in H. discriminate H.
  - change (map_Forall (fun (_ : string) (n : Z) => n = 0)
              (<["paneer-sandwich" := 0]> ({[ "paneer-sandwich" := 1 ]}
                                             : gmap string Z))).
    rewrite insert_singleton_eq. by apply map_Forall_singleton.
Defined.

(** X10.  The plus button of the cart box goes round the gate of
    [addToCart]: on a paid plan with a cart that holds exactly the remaining
    capacity, [addToCart] refuses one more unit, the plus button of a row
    below 10 adds it all the same, and checkout then flags the whole order
    extra. *)
Theorem X10_cartBox_plus_goes_round_the_gate (u : User) (orders : list Order)
    (now : Z) (uid : string) (stamp : Z) (cart : gmap string Z)
    (itemId : string) (qty : Z) :
  planPaid (Some u) = true ->
  cart !! itemId = Some qty ->
  0 <= qty < 10 ->
  cartTotalQty cart = planRemaining (Some u) orders now ->
  (exists a, addToCart (Some u) orders now cart itemId = (Some a, cart))
  /\ cartTotalQty (cartBoxPlus cart itemId)
     = planRemaining (Some u) orders now + 1
  /\ exists o,
       handleCheckout (Some u) orders now uid stamp (cartBoxPlus cart itemId)
         = (OrderPlaced, Some o, ∅)
       /\ isExtraOrder o = true.
Proof.
  intros Hp Hq Hrange Htot.
  assert (Hplus : cartTotalQty (cartBoxPlus cart itemId)
                  = planRemaining (Some u) orders now + 1).
  { unfold cartBoxPlus, setCartQty. rewrite Hq, cartTotalQty_insert, Hq. simpl.
    lia. }
  split; [|split; [done|]].
  - destruct (addToCart_result (Some u) orders now cart itemId) as [Ha|Ha]; [done|].
    exfalso. revert Ha. unfold addToCart. rewrite Hp.
    destruct (planRemaining (Some u) orders now <=? 0); [discriminate|].
    destruct (default 0 (itemPlanCounts (Some u) orders now !! itemId)
              >=? PER_ITEM_MAX); [discriminate|].
    destruct (Z.gtb_spec (cartTotalQty cart + 1) (planRemaining (Some u) orders now));
      [discriminate | lia].
  - assert (Hne : cartBoxPlus cart itemId ≠ ∅).
    { unfold cartBoxPlus, setCartQty. rewrite Hq. apply insert_non_empty. }
    eexists. split; [by apply handleCheckout_places|].
    cbn [isExtraOrder]. rewrite Hp, Hplus.
    by destruct (Z.leb_spec (planRemaining (Some u) orders now + 1)
                   (planRemaining (Some u) orders now)); [lia|].
Qed.

Lemma X10_cartBox_plus_goes_round_the_gate_witness :
  let u := userWith (paidPlan 0 100 3) in
  let orders := [orderOf [line "tofu-sandwich" 9] false approved 10;
                 orderOf [line "melon-mint" 9] false approved 20;
                 orderOf [line "black-chana" 9] false pending 30] in
  let cart : gmap string Z := {[ "paneer-sandwich" := 3 ]} in
  (exists a, addToCart (Some u) orders 50 cart "paneer-sandwich" = (Some a, cart))
  /\ cartTotalQty (cartBoxPlus cart "paneer-sandwich")
     = planRemaining (Some u) orders 50 + 1
  /\ exists o,
       handleCheckout (Some u) orders 50 "u1" 60 (cartBoxPlus cart "paneer-sandwich")
         = (OrderPlaced, Some o, ∅)
       /\ isExtraOrder o = true.
Proof.
  apply (X10_cartBox_plus_goes_round_the_gate (userWith (paidPlan 0 100 3))
           [orderOf [line "tofu-sandwich" 9] false approved 10;
            orderOf [line "melon-mint" 9] false approved 20;
            orderOf [line "black-chana" 9] false pending 30]
           50 "u1" 60 {[ "paneer-sandwich" := 3 ]} "paneer-sandwich" 3).
  - reflexivity.
  - vm_compute. reflexivity.
  - lia.
  - vm_compute. reflexivity.
Defined.

(** X11.  The Add button of a catalog card is disabled exactly when
    [addToCart] would answer that the plan is full or the item maxed,
    whatever the cart; behind an enabled button [addToCart] either adds the
    unit or answers that the capacity would be exceeded. *)
Theorem X11_disabled_button_matches_addToCart (profile : option User)
    (orders : list Order) (now : Z) (cart : gmap string Z) (itemId : string) :
  (disableAdd profile orders now itemId = true <->
   (addToCart profile orders now cart itemId).1 = Some PlanCapacityReached
   \/ (addToCart profile orders now cart itemId).1 = Some ItemMaxedForPlan)
  /\ (disableAdd profile orders now itemId = false ->
      (addToCart profile orders now cart itemId).1 = None
      \/ (addToCart profile orders now cart itemId).1 = Some ExceedsPlanCapacity).
Proof.
  unfold disableAdd, itemMaxed, planFull, availablePlanCapacity, addToCart.
  fold (planRemaining profile orders now).
  destruct (planPaid profile); simpl.
  - destruct (planRemaining profile orders now <=? 0); simpl.
    + rewrite orb_true_r. split; [|done]. split; [by left | done].
    + rewrite orb_false_r.
      destruct (default 0 (itemPlanCounts profile orders now !! itemId)
                >=? PER_ITEM_MAX); simpl.
      * split; [|done]. split; [by right | done].
      * destruct (cartTotalQty cart + 1 >? planRemaining profile orders now); simpl;
          (split; [split; [done | by intros [?|?]] | intros _; eauto]).
  - split; [split; [done | by intros [?|?]] | intros _; eauto].
Qed.

(** ** The counts and the capacity of the plan *)






(** The lines of every cart that checkout turns into an order carry
    pairwise distinct ids. *)
Lemma cartItems_NoDup (cart : gmap string Z) : NoDup (it_id <$> cartItems cart).
Proof.
  unfold cartItems. rewrite <- list_fmap_compose.
  apply (NoDup_fst_map_to_list cart).
Qed.

(** X13.  The remaining capacity is never negative; it never exceeds 30
    when no line of an order carries a negative quantity; and it is 30 when
    the plan is not paid or has no start or no end date, whatever the
    orders. *)
Theorem X13_planRemaining_bounds (profile : option User) (orders : list Order)
    (now : Z) :
  0 <= planRemaining profile orders now
  /\ (Forall (fun o => linesOk (items o)) orders ->
      planRemaining profile orders now <= PLAN_CAPACITY)
  /\ (planPaid profile = false \/ planStart profile = None
      \/ planEnd profile = None ->
      planRemaining profile orders now = PLAN_CAPACITY).
Proof.
  unfold planRemaining. split; [lia|]. split.
  - intros Hok.
    assert (0 <= planUsedCount profile orders now); [|unfold PLAN_CAPACITY; lia].
    unfold planUsedCount. rewrite fold_left_add_acc, Z.add_0_l.
    assert (Hplan : Forall (fun o => linesOk (items o))
                      (userPlanOrders profile orders now)).
    { unfold userPlanOrders.
      destruct (planPaid profile), (planStart profile), (planEnd profile);
        try constructor.
      apply Forall_forall. intros o Hin. apply list_elem_of_In, filter_In in Hin.
      rewrite Forall_forall in Hok. apply Hok, list_elem_of_In. tauto. }
    induction Hplan as [|o l Ho _ IH]; simpl; [lia|].
    pose proof (sumQty_nonneg _ Ho). lia.
  - intros H.
    assert (userPlanOrders profile orders now = []) as Hnil.
    { unfold userPlanOrders.
      destruct H as [-> | [-> | ->]]; [done| |].
      - by destruct (planPaid profile).
      - by destruct (planPaid profile), (planStart profile). }
    unfold planUsedCount. rewrite Hnil. simpl. unfold PLAN_CAPACITY. lia.
Qed.

(** X14.  Checkout never commits the plan beyond its 30 meals: if the
    plan orders of the window add up to 30 units at most, they still do
    with the order that checkout places.  A plan order stamped within the
    window lowers the remaining capacity by exactly its quantity, and an
    extra order leaves it as it was. *)
Theorem X14_checkout_keeps_window_within_capacity (u : User)
    (orders : list Order) (now s e : Z) (uid : string) (stamp : Z)
    (cart : gmap string Z) :
  paid (plan u) = Some true ->
  startDate (plan u) = Some s ->
  endDate (plan u) = Some e ->
  cart ≠ ∅ ->
  windowUsed s e now orders <= 30 ->
  exists o,
    handleCheckout (Some u) orders now uid stamp cart = (OrderPlaced, Some o, ∅)
    /\ windowUsed s e now (o :: orders) <= 30
    /\ (isExtraOrder o = false -> s <= stamp <= e ->
        planRemaining (Some u) (o :: orders) now
        = planRemaining (Some u) orders now - totalQty o)
    /\ (isExtraOrder o = true ->
        planRemaining (Some u) (o :: orders) now
        = planRemaining (Some u) orders now).
Proof.
  intros Hp Hs He Hne Hused. eexists.
  split; [by apply handleCheckout_places|].
  assert (Hpaid : planPaid (Some u) = true) by (unfold planPaid; by rewrite Hp).
  assert (Hrem : planRemaining (Some u) orders now
                 = 30 - windowUsed s e now orders).
  { unfold planRemaining.
    rewrite (planUsedCount_windowUsed u orders now s e) by done.
    unfold PLAN_CAPACITY. lia. }
  match goal with
  | |- context [windowUsed s e now (?x :: orders)] => set (o := x)
  end.
  assert (Hx : isExtraOrder o
               = negb (cartTotalQty cart <=? 30 - windowUsed s e now orders)).
  { unfold o. cbn [isExtraOrder]. by rewrite Hpaid, Hrem. }
  assert (Hq : totalQty o = cartTotalQty cart) by done.
  assert (Hw : windowUsed s e now (o :: orders)
               = (if negb (isExtraOrder o) && (s <=? stamp) && (stamp <=? e)
                  then cartTotalQty cart else 0)
                 + windowUsed s e now orders).
  { cbn [windowUsed]. change (default now (date o)) with stamp.
    change (items o) with (cartItems cart). by rewrite sumQty_cartItems. }
  assert (Hr : planRemaining (Some u) (o :: orders) now
               = Z.max 0 (30 - windowUsed s e now (o :: orders))).
  { unfold planRemaining.
    by rewrite (planUsedCount_windowUsed u (o :: orders) now s e). }
  clearbody o. rewrite Hr, Hw, Hx, Hq, Hrem.
  destruct (Z.leb_spec (cartTotalQty cart) (30 - windowUsed s e now orders))
    as [Hle|Hlt]; cbn [negb andb].
  - split; [|split; [|done]].
    + destruct ((s <=? stamp) && (stamp <=? e)); lia.
    + intros _ [Hlo Hhi]. apply Z.leb_le in Hlo, Hhi. rewrite Hlo, Hhi.
      cbn [andb]. lia.
  - split; [lia|]. split; [done|]. intros _. lia.
Qed.

Lemma X14_checkout_keeps_window_within_capacity_witness :
  let u := userWith (paidPlan 0 100 30) in
  let orders := [orderOf [line "tofu-sandwich" 9] false pending 10] in
  let cart : gmap string Z := {[ "paneer-sandwich" := 3 ]} in
  exists o,
    handleCheckout (Some u) orders 50 "u1" 60 cart = (OrderPlaced, Some o, ∅)
    /\ windowUsed 0 100 50 (o :: orders) <= 30
    /\ (isExtraOrder o = false -> 0 <= 60 <= 100 ->
        planRemaining (Some u) (o :: orders) 50
        = planRemaining (Some u) orders 50 - totalQty o)
    /\ (isExtraOrder o = true ->
        planRemaining (Some u) (o :: orders) 50
        = planRemaining (Some u) orders 50).
Proof.
  apply (X14_checkout_keeps_window_within_capacity (userWith (paidPlan 0 100 30))
           [orderOf [line "tofu-sandwich" 9] false pending 10] 50 0 100 "u1" 60
           {[ "paneer-sandwich" := 3 ]}).
  - reflexivity.
  - reflexivity.
  - reflexivity.
  - intros H.
    apply (f_equal (fun m : gmap string Z => m !! "paneer-sandwich")) in H.
    vm_compute in H. discriminate H.
  - vm_compute. discriminate.
Defined.

(** ** The owner view *)

Lemma cancelOrder_existing (st : Store) (oid : string) (o : Order) :
  Orders st !! oid = Some o ->
  cancelOrder st oid
  = (OrderCancelled,
     {| users := users st;
        Orders := <[oid := setStatusCancelled o]> (Orders st);
        Users := Users st |}).
Proof. intros Ho. unfold cancelOrder. by rewrite Ho. Qed.

(** X15.  Cancelling an order is not final and never touches a balance:
    the order stays in the list of pending orders of the orders tab, with
    its Approve button, and a click on it, in the listing that shows the
    cancellation, approves the order and takes its units off the balance of
    the customer. *)
Theorem X15_cancelled_order_can_still_be_approved (st : Store) (oid : string)
    (o : Order) (u : User) (stamp : Z) :
  Orders st !! oid = Some o ->
  isExtraOrder o = false ->
  userID o <> "" ->
  users st !! userID o = Some u ->
  let st1 := (cancelOrder st oid).2 in
  users st1 = users st
  /\ (status <$> Orders st1 !! oid) = Some cancelled
  /\ (oid, setStatusCancelled o) ∈ pendingList None (map_to_list (Orders st1))
  /\ (status <$> Orders (ordersTabApprove st1 (Orders st1) oid stamp) !! oid) = Some approved
  /\ mealsOf (ordersTabApprove st1 (Orders st1) oid stamp) (userID o)
     = Some (Z.max 0 (default 30 (mealsRemaining (plan u)) - sumQty (items o))).
Proof.
  intros Ho Hx Hid Hu st1. unfold st1.
  rewrite (cancelOrder_existing st oid o Ho). cbn [snd users Orders].
  rewrite lookup_insert_eq.
  split; [done|]. split; [done|]. split.
  - unfold pendingList. apply list_elem_of_In, filter_In. split; [|done].
    apply list_elem_of_In, elem_of_map_to_list, lookup_insert_eq.
  - unfold ordersTabApprove. cbn [Orders]. rewrite lookup_insert_eq.
    cbn [status setStatusCancelled].
    rewrite (approveOrder_plan_order _ oid (setStatusCancelled o)
               (setStatusCancelled o) stamp u);
      [|by apply lookup_insert_eq|done|done|done].
    cbn [snd Orders users]. rewrite lookup_insert_eq.
    split; [done|]. unfold mealsOf. cbn [users]. by rewrite lookup_insert_eq.
Qed.

Lemma X15_cancelled_order_can_still_be_approved_witness :
  let o := orderOf [line "paneer-sandwich" 2; line "melon-mint" 3] false pending 10 in
  let st1 := (cancelOrder scenarioC "o1").2 in
  users st1 = users scenarioC
  /\ (status <$> Orders st1 !! "o1") = Some cancelled
  /\ ("o1", setStatusCancelled o) ∈ pendingList None (map_to_list (Orders st1))
  /\ (status <$> Orders (ordersTabApprove st1 (Orders st1) "o1" 12) !! "o1") = Some approved
  /\ mealsOf (ordersTabApprove st1 (Orders st1) "o1" 12) "u1"
     = Some (Z.max 0 (default 30 (Some 30) - 5)).
Proof.
  apply (X15_cancelled_order_can_still_be_approved scenarioC "o1"
           (orderOf [line "paneer-sandwich" 2; line "melon-mint" 3] false pending 10)
           (userWith (paidPlan 0 100 30)) 12).
  - reflexivity.
  - reflexivity.
  - discriminate.
  - reflexivity.
Defined.

(** X16.  The two lists of the orders tab split the orders that pass the
    customer filter: each such order is in exactly one of them, the
    approved ones in the second and all the others, cancelled ones
    included, in the first. *)
Theorem X16_orders_tab_lists_split (filterUser : option string)
    (orders : list (string * Order)) :
  pendingList filterUser orders ++ approvedList filterUser orders
    ≡ₚ List.filter (fun e => passesFilter filterUser e.2) orders
  /\ Forall (fun e => status e.2 <> approved) (pendingList filterUser orders)
  /\ Forall (fun e => status e.2 = approved) (approvedList filterUser orders)
  /\ forall e, e ∈ orders -> passesFilter filterUser e.2 = true ->
               status e.2 = cancelled -> e ∈ pendingList filterUser orders.
Proof.
  split; [|split; [|split]].
  - unfold pendingList, approvedList.
    induction orders as [|e l IH]; simpl; [done|].
    destruct (isApproved e.2), (passesFilter filterUser e.2); simpl; try done.
    + rewrite <- IH. by rewrite Permutation_middle.
    + by rewrite IH.
  - apply Forall_forall. intros e Hin.
    apply list_elem_of_In, filter_In in Hin as [_ Hin].
    apply andb_prop in Hin as [Hin _]. unfold isApproved in Hin.
    by destruct (status e.2).
  - apply Forall_forall. intros e Hin.
    apply list_elem_of_In, filter_In in Hin as [_ Hin].
    apply andb_prop in Hin as [Hin _]. unfold isApproved in Hin.
    by destruct (status e.2).
  - intros e Hin Hf Hs. apply list_elem_of_In, filter_In.
    split; [by apply list_elem_of_In|]. unfold isApproved. by rewrite Hs, Hf.
Qed.

(** *** The figures of a customer *)

Lemma userStats_orders_fold (l : list (string * Order)) (m : gmap string Stats)
    (uid : string) :
  fold_left
    (fun map e =>
       <[userID e.2 :=
           addOrderStats (default (newStats None) (map !! userID e.2)) e.2]> map)
    l m !! uid
  = match ordersOfUser uid l with
    | [] => m !! uid
    | mine =>
        Some (fold_left addOrderStats mine (default (newStats None) (m !! uid)))
    end.
Proof.
  revert m. induction l as [|e l IH]; intros m; [done|].
  cbn [fold_left]. rewrite IH. unfold ordersOfUser. cbn [List.filter].
  destruct (String.eqb_spec (userID e.2) uid) as [Heq|Hne].
  - rewrite Heq, lookup_insert_eq. rewrite fmap_cons. cbn [default fold_left].
    by destruct (snd <$> List.filter _ l).
  - by rewrite lookup_insert_ne.
Qed.

Lemma userStats_users_fold (l : list (string * User)) (m : gmap string Stats)
    (uid : string) :
  (forall s, m !! uid = Some s -> s = newStats (statsUser s)) ->
  forall s,
    fold_left (fun map e => <[e.1 := newStats (Some e.2)]> map) l m !! uid = Some s ->
    s = newStats (statsUser s).
Proof.
  revert m. induction l as [|e l IH]; intros m Hm s; [apply Hm|].
  cbn [fold_left]. apply IH. intros s'. rewrite lookup_insert.
  destruct (decide (e.1 = uid)); [|apply Hm]. by intros [= <-].
Qed.

Lemma addOrderStats_fold (mine : list Order) (s0 : Stats) :
  let s := fold_left addOrderStats mine s0 in
  statsOrders s = statsOrders s0 ++ mine
  /\ approvedOrders s = approvedOrders s0 ++ List.filter isApproved mine
  /\ pendingOrders s
     = pendingOrders s0 ++ List.filter (fun o => negb (isApproved o)) mine
  /\ approvedCount s
     = approvedCount s0 + Z.of_nat (length (List.filter isApproved mine))
  /\ pendingCount s
     = pendingCount s0
       + Z.of_nat (length (List.filter (fun o => negb (isApproved o)) mine))
  /\ totalSpent s = totalSpent s0 + foldr (fun o t => totalPrice o + t) 0 mine
  /\ planUsedMeals s
     = planUsedMeals s0
       + foldr (fun o t => (if isExtraOrder o then 0 else sumQty (items o)) + t)
           0 mine.
Proof.
  revert s0. induction mine as [|o mine IH]; intros s0.
  - cbn. rewrite !app_nil_r. repeat split; lia.
  - cbn [fold_left]. specialize (IH (addOrderStats s0 o)). cbv zeta in IH |- *.
    destruct IH as (H1 & H2 & H3 & H4 & H5 & H6 & H7).
    rewrite H1, H2, H3, H4, H5, H6, H7. clear.
    unfold addOrderStats, isApproved. cbn [List.filter foldr].
    destruct (status o), (isExtraOrder o);
      cbn [statsOrders approvedOrders pendingOrders approvedCount pendingCount
           totalSpent planUsedMeals negb length];
      rewrite <- ?app_assoc, ?Nat2Z.inj_succ; repeat split; try done; lia.
Qed.

(** X17.  The figures that the dashboard shows for a customer: the two
    counts add up to the number of the orders of the customer, every order
    that is not approved, cancelled ones included, counting as pending; the
    amount spent adds the totals of all of them; and the meals used add
    the quantities of all the orders that are not extra, approved or not
    and of any date. *)
Theorem X17_userStats_figures (users : list (string * User))
    (orders : list (string * Order)) (uid : string) (s : Stats) :
  userStats users orders !! uid = Some s ->
  let mine := ordersOfUser uid orders in
  statsOrders s = mine
  /\ approvedOrders s = List.filter isApproved mine
  /\ pendingOrders s = List.filter (fun o => negb (isApproved o)) mine
  /\ approvedCount s + pendingCount s = Z.of_nat (length mine)
  /\ totalSpent s = foldr (fun o t => totalPrice o + t) 0 mine
  /\ planUsedMeals s
     = foldr (fun o t => (if isExtraOrder o then 0 else sumQty (items o)) + t)
         0 mine.
Proof.
  intros Hs mine. unfold userStats in Hs. rewrite userStats_orders_fold in Hs.
  fold mine in Hs.
  set (map0 := fold_left (fun map e => <[e.1 := newStats (Some e.2)]> map) users ∅)
    in Hs.
  assert (Hnew : forall s0, map0 !! uid = Some s0 -> s0 = newStats (statsUser s0)).
  { apply userStats_users_fold. intros s0. by rewrite lookup_empty. }
  assert (Hd : default (newStats None) (map0 !! uid)
               = newStats (statsUser (default (newStats None) (map0 !! uid)))).
  { destruct (map0 !! uid) as [s0|] eqn:E; simpl; [by apply Hnew | done]. }
  assert (Hfold : s = fold_left addOrderStats mine
                        (default (newStats None) (map0 !! uid))).
  { destruct mine as [|o rest] eqn:E; [|by injection Hs as <-].
    simpl. rewrite Hs. simpl. done. }
  pose proof (addOrderStats_fold mine (default (newStats None) (map0 !! uid)))
    as H. cbv zeta in H. rewrite <- Hfold in H.
  destruct H as (H1 & H2 & H3 & H4 & H5 & H6 & H7).
  rewrite Hd in H1, H2, H3, H4, H5, H6, H7.
  cbn [newStats statsOrders approvedOrders pendingOrders approvedCount
       pendingCount totalSpent planUsedMeals app] in H1, H2, H3, H4, H5, H6, H7.
  assert (Hlen : (length (List.filter isApproved mine)
                  + length (List.filter (fun o => negb (isApproved o)) mine))%nat
                 = length mine).
  { clear. induction mine as [|o l IH]; [done|]. cbn [List.filter].
    destruct (isApproved o); cbn [negb length]; lia. }
  repeat split; try done; lia.
Qed.

Lemma X17_userStats_figures_witness :
  let orders :=
    [("o1", orderOf [line "paneer-sandwich" 2] false approved 10);
     ("o2", orderOf [line "melon-mint" 3] false cancelled 200);
     ("o3", orderOf [line "tofu-sandwich" 1] true pending 30)] in
  let s := default (newStats None)
             (userStats [("u1", userWith (paidPlan 0 100 30))] orders !! "u1") in
  let mine := ordersOfUser "u1" orders in
  statsOrders s = mine
  /\ approvedOrders s = List.filter isApproved mine
  /\ pendingOrders s = List.filter (fun o => negb (isApproved o)) mine
  /\ approvedCount s + pendingCount s = Z.of_nat (length mine)
  /\ totalSpent s = foldr (fun o t => totalPrice o + t) 0 mine
  /\ planUsedMeals s
     = foldr (fun o t => (if isExtraOrder o then 0 else sumQty (items o)) + t)
         0 mine.
Proof.
  apply (X17_userStats_figures [("u1", userWith (paidPlan 0 100 30))]
           [("o1", orderOf [line "paneer-sandwich" 2] false approved 10);
            ("o2", orderOf [line "melon-mint" 3] false cancelled 200);
            ("o3", orderOf [line "tofu-sandwich" 1] true pending 30)] "u1").
  vm_compute. reflexivity.
Defined.

(** *** Labels and lists after the plan operations *)

(** X18.  After a payment approval at time [start] the dashboard labels
    the plan Active up to the end date that the approval stored, included,
    and Expired from then on.  That date is the same time of the local
    clock 30 days later in the calendar: [start] plus 30 days of
    86 400 000 ms, plus what the offset of the local zone lost between the
    two dates, which is nothing where the offset does not change.  After a
    renewal request the dashboard labels the plan Payment submitted at any
    time, whatever the plan was. *)
Theorem X18_statusLabel_after_plan_operations (LocalTZA : Z -> bool -> Z)
    (monthStartDay : Z -> Z) (st : Store) (uid : string) (u snap : User)
    (start stamp : Z) :
  users st !! uid = Some u ->
  let shift :=
    LocalTZA start true
    - LocalTZA (start + LocalTZA start true + 30 * 86400000) false in
  (exists u1,
     users (approvePayment LocalTZA monthStartDay st uid snap start stamp).2 !! uid
       = Some u1
     /\ endDate (plan u1) = Some (start + 30 * 86400000 + shift)
     /\ forall now,
          statusLabel (plan u1) now
          = if now <=? start + 30 * 86400000 + shift then Active else Expired)
  /\ (exists u2,
        users (handleRenewPlan st uid).2 !! uid = Some u2
        /\ forall now, statusLabel (plan u2) now = PaymentSubmittedLabel).
Proof.
  intros Hu shift. split.
  - unfold approvePayment. rewrite Hu. cbn [snd users].
    eexists. split; [apply lookup_insert_eq|].
    assert (He : plus30Days LocalTZA monthStartDay start
                 = start + 30 * 86400000 + shift)
      by by rewrite plus30Days_exact.
    unfold statusLabel.
    cbn [plan approvePaymentFields paid endDate default]. rewrite He.
    split; [done|]. intros now.
    destruct (Z.geb_spec (start + 30 * 86400000 + shift) now),
      (Z.leb_spec now (start + 30 * 86400000 + shift)); try done; lia.
  - unfold handleRenewPlan. rewrite Hu. cbn [snd users].
    eexists. split; [apply lookup_insert_eq|]. done.
Qed.

(** On a host in New York, an approval on 20 October 2026 at 16:00 UTC
    stores an end date 30 days and one hour later: the plan is still Active
    half an hour after the 30 days of 86 400 000 ms. *)
Lemma X18_statusLabel_after_plan_operations_witness :
  let st := {| users := {[ "u1" := userWith noPlan ]}; Orders := ∅; Users := ∅ |} in
  let start := 1792512000000 in
  (exists u1,
     users (approvePayment newYorkAutumn2026 lastQuarter2026 st "u1"
              (userWith noPlan) start (start + 1)).2 !! "u1"
       = Some u1
     /\ endDate (plan u1) = Some 1795107600000
     /\ statusLabel (plan u1) (start + 30 * 86400000 + 1800000) = Active
     /\ statusLabel (plan u1) 1795107600000 = Active
     /\ statusLabel (plan u1) 1795107600001 = Expired)
  /\ (exists u2,
        users (handleRenewPlan st "u1").2 !! "u1" = Some u2
        /\ forall now, statusLabel (plan u2) now = PaymentSubmittedLabel).
Proof.
  intros st start.
  assert (Hu : users st !! "u1" = Some (userWith noPlan)) by reflexivity.
  destruct (X18_statusLabel_after_plan_operations newYorkAutumn2026
              lastQuarter2026 st "u1" (userWith noPlan) (userWith noPlan)
              start (start + 1) Hu)
    as [(u1 & H1 & He & Hl) H2].
  split; [|exact H2].
  exists u1. split; [exact H1|]. split; [exact He|].
  rewrite !Hl. repeat split.
Defined.

(** X19.  Which lists of the owner view hold a customer after each plan
    operation.  The payment approval of the owner view takes the customer
    out of the pending payments and puts it among the approved customers.
    The approval of the owner panel leaves [paymentStatus] alone, so a
    customer marked pending there stays among the pending payments.  A
    renewal request puts the customer among the pending payments, and a
    customer whose [paymentStatus] is approved stays among the approved
    ones although the plan is no longer paid. *)
Theorem X19_owner_lists_after_plan_operations (LocalTZA : Z -> bool -> Z)
    (monthStartDay : Z -> Z) (st : Store) (uid : string) (u snap : User)
    (start stamp : Z) :
  users st !! uid = Some u ->
  (exists u1,
     users (approvePayment LocalTZA monthStartDay st uid snap start stamp).2 !! uid
       = Some u1
     /\ isPendingPayment u1 = false /\ isApprovedUser u1 = true)
  /\ (exists u2,
        users (ownerApprovePlan LocalTZA monthStartDay st uid start).2 !! uid
          = Some u2
        /\ isPendingPayment u2 = bool_decide (paymentStatus u = Some "pending")
        /\ isApprovedUser u2 = true)
  /\ (exists u3,
        users (handleRenewPlan st uid).2 !! uid = Some u3
        /\ isPendingPayment u3 = true
        /\ isApprovedUser u3 = bool_decide (paymentStatus u = Some "approved")).
Proof.
  intros Hu. unfold approvePayment, ownerApprovePlan, handleRenewPlan.
  rewrite Hu. cbn [snd users]. rewrite !lookup_insert_eq.
  split; [|split]; eexists; (split; [reflexivity|]); done.
Qed.

Lemma X19_owner_lists_after_plan_operations_witness :
  let u := {| plan := paidPlan 0 100 0; paymentStatus := Some "approved" |} in
  let st := {| users := {[ "u1" := u ]}; Orders := ∅; Users := ∅ |} in
  (exists u1,
     users (approvePayment IST thirtyDayMonths st "u1" u 1000 1001).2 !! "u1"
       = Some u1
     /\ isPendingPayment u1 = false /\ isApprovedUser u1 = true)
  /\ (exists u2,
        users (ownerApprovePlan IST thirtyDayMonths st "u1" 1000).2 !! "u1"
          = Some u2
        /\ isPendingPayment u2 = bool_decide (paymentStatus u = Some "pending")
        /\ isApprovedUser u2 = true)
  /\ (exists u3,
        users (handleRenewPlan st "u1").2 !! "u1" = Some u3
        /\ isPendingPayment u3 = true
        /\ isApprovedUser u3 = bool_decide (paymentStatus u = Some "approved")).
Proof.
  apply (X19_owner_lists_after_plan_operations IST thirtyDayMonths
           {| users := {[ "u1" := {| plan := paidPlan 0 100 0;
                                      paymentStatus := Some "approved" |} ]};
              Orders := ∅; Users := ∅ |}
           "u1" {| plan := paidPlan 0 100 0; paymentStatus := Some "approved" |}
           {| plan := paidPlan 0 100 0; paymentStatus := Some "approved" |}
           1000 1001).
  reflexivity.
Defined.

Lemma handleCheckout_depends_on_paid_and_window (u u' : User)
    (orders : list Order) (now : Z) (uid : string) (stamp : Z)
    (cart : gmap string Z) :
  paid (plan u') = paid (plan u) ->
  startDate (plan u') = startDate (plan u) ->
  endDate (plan u') = endDate (plan u) ->
  handleCheckout (Some u') orders now uid stamp cart
  = handleCheckout (Some u) orders now uid stamp cart.
Proof.
  intros Hp Hs He.
  unfold handleCheckout, planRemaining, planUsedCount, userPlanOrders,
    planPaid, planStart, planEnd.
  by rewrite Hp, Hs, He.
Qed.

(** X20.  The Mark for Renew button of the owner only raises
    [paymentSubmitted]: the customer enters the pending payments, while
    [paid], the balance and the dates stay, so the gate of the cart and
    checkout answer as before, where the renewal request of the customer
    revokes the plan. *)
Theorem X20_markForRenew_keeps_the_plan (st : Store) (uid : string) (u : User)
    (orders : list Order) (now : Z) (cart : gmap string Z) (itemId : string)
    (stamp : Z) :
  users st !! uid = Some u ->
  exists u',
    markForRenew st uid
    = (RenewFlagSet,
       {| users := <[uid := u']> (users st); Orders := Orders st;
          Users := Users st |})
    /\ isPendingPayment u' = true
    /\ paid (plan u') = paid (plan u)
    /\ mealsRemaining (plan u') = mealsRemaining (plan u)
    /\ totalMeals (plan u') = totalMeals (plan u)
    /\ startDate (plan u') = startDate (plan u)
    /\ endDate (plan u') = endDate (plan u)
    /\ addToCart (Some u') orders now cart itemId
       = addToCart (Some u) orders now cart itemId
    /\ handleCheckout (Some u') orders now uid stamp cart
       = handleCheckout (Some u) orders now uid stamp cart.
Proof.
  intros Hu. unfold markForRenew. rewrite Hu. eexists.
  split; [reflexivity|]. do 6 (split; [reflexivity|]). split.
  - by apply addToCart_depends_on_paid_and_window.
  - by apply handleCheckout_depends_on_paid_and_window.
Qed.

Lemma X20_markForRenew_keeps_the_plan_witness :
  let u := userWith (paidPlan 0 100 3) in
  let st := {| users := {[ "u1" := u ]}; Orders := ∅; Users := ∅ |} in
  let cart : gmap string Z := {[ "paneer-sandwich" := 3 ]} in
  exists u',
    markForRenew st "u1"
    = (RenewFlagSet,
       {| users := <["u1" := u']> (users st); Orders := Orders st;
          Users := Users st |})
    /\ isPendingPayment u' = true
    /\ paid (plan u') = paid (plan u)
    /\ mealsRemaining (plan u') = mealsRemaining (plan u)
    /\ totalMeals (plan u') = totalMeals (plan u)
    /\ startDate (plan u') = startDate (plan u)
    /\ endDate (plan u') = endDate (plan u)
    /\ addToCart (Some u') [] 50 cart "melon-mint"
       = addToCart (Some u) [] 50 cart "melon-mint"
    /\ handleCheckout (Some u') [] 50 "u1" 60 cart
       = handleCheckout (Some u) [] 50 "u1" 60 cart.
Proof.
  apply (X20_markForRenew_keeps_the_plan
           {| users := {[ "u1" := userWith (paidPlan 0 100 3) ]}; Orders := ∅;
              Users := ∅ |}
           "u1" (userWith (paidPlan 0 100 3)) [] 50
           {[ "paneer-sandwich" := 3 ]} "melon-mint" 60).
  reflexivity.
Defined.

(** X21.  A receipt that the customer submits is stored with its name,
    raises [paymentSubmitted] and leaves [paid] and the balance alone.  The
    payment approval of the owner view then writes back the receipt of the
    customer object it was called on: the receipt stays when that object
    is the stored document, and it is replaced by the older one, or by
    nothing, when the object predates the submission. *)
Theorem X21_receipt_through_payment_approval (LocalTZA : Z -> bool -> Z)
    (monthStartDay : Z -> Z) (st : Store) (uid : string) (u : User)
    (name base64 : string) (t start stamp : Z) :
  users st !! uid = Some u ->
  base64 <> "" ->
  let st1 := (handleUploadReceipt st uid (Some (name, base64)) t).2 in
  exists u1,
    handleUploadReceipt st uid (Some (name, base64)) t
    = (ReceiptSubmitted,
       {| users := <[uid := u1]> (users st); Orders := Orders st;
          Users := Users st |})
    /\ receiptBase64 (plan u1) = Some base64
    /\ receiptName (plan u1) = Some name
    /\ paymentSubmitted (plan u1) = Some true
    /\ paid (plan u1) = paid (plan u)
    /\ mealsRemaining (plan u1) = mealsRemaining (plan u)
    /\ (exists u2,
          users (approvePayment LocalTZA monthStartDay st1 uid u1 start stamp).2
            !! uid = Some u2
          /\ receiptBase64 (plan u2) = Some base64)
    /\ (exists u3,
          users (approvePayment LocalTZA monthStartDay st1 uid u start stamp).2
            !! uid = Some u3
          /\ receiptBase64 (plan u3) = orNull (receiptBase64 (plan u)))
    /\ (exists u4,
          users (ownerApprovePlan LocalTZA monthStartDay st1 uid start).2
            !! uid = Some u4
          /\ receiptBase64 (plan u4) = Some base64).
Proof.
  intros Hu Hne st1. unfold st1, handleUploadReceipt. rewrite Hu.
  eexists. split; [reflexivity|].
  unfold approvePayment, ownerApprovePlan. cbn [snd users].
  rewrite !lookup_insert_eq. cbn [snd users]. rewrite !lookup_insert_eq.
  apply String.eqb_neq in Hne.
  repeat split; try (eexists; split; [reflexivity|]); cbn; by rewrite ?Hne.
Qed.

Lemma X21_receipt_through_payment_approval_witness :
  let u := userWith noPlan in
  let st := {| users := {[ "u1" := u ]}; Orders := ∅; Users := ∅ |} in
  let st1 := (handleUploadReceipt st "u1" (Some ("r.png", "data:image/png")) 5).2 in
  exists u1,
    handleUploadReceipt st "u1" (Some ("r.png", "data:image/png")) 5
    = (ReceiptSubmitted,
       {| users := <["u1" := u1]> (users st); Orders := Orders st;
          Users := Users st |})
    /\ receiptBase64 (plan u1) = Some "data:image/png"
    /\ receiptName (plan u1) = Some "r.png"
    /\ paymentSubmitted (plan u1) = Some true
    /\ paid (plan u1) = paid (plan u)
    /\ mealsRemaining (plan u1) = mealsRemaining (plan u)
    /\ (exists u2,
          users (approvePayment IST thirtyDayMonths st1 "u1" u1 1000 1001).2
            !! "u1" = Some u2
          /\ receiptBase64 (plan u2) = Some "data:image/png")
    /\ (exists u3,
          users (approvePayment IST thirtyDayMonths st1 "u1" u 1000 1001).2
            !! "u1" = Some u3
          /\ receiptBase64 (plan u3) = orNull (receiptBase64 (plan u)))
    /\ (exists u4,
          users (ownerApprovePlan IST thirtyDayMonths st1 "u1" 1000).2
            !! "u1" = Some u4
          /\ receiptBase64 (plan u4) = Some "data:image/png").
Proof.
  apply (X21_receipt_through_payment_approval IST thirtyDayMonths
           {| users := {[ "u1" := userWith noPlan ]}; Orders := ∅; Users := ∅ |}
           "u1" (userWith noPlan) "r.png" "data:image/png" 5 1000 1001).
  - reflexivity.
  - discriminate.
Defined.

(** *** functions.js on the orders of the portal *)

Lemma menu_names_not_legacy (id : string) :
  id ∈ menuIds ->
  namedAs "Healthy Meal" (line id 0) = false
  /\ namedAs "Chai" (line id 0) = false.
Proof.
  revert id. apply Forall_forall.
  apply (bool_decide_unpack _). vm_compute. exact I.
Qed.

Lemma filter_cartItems_menu (cart : gmap string Z) (name : string) :
  (forall id, id ∈ menuIds -> namedAs name (line id 0) = false) ->
  map_Forall (fun id _ => id ∈ menuIds) cart ->
  List.filter (namedAs name) (cartItems cart) = [].
Proof.
  intros Hname Hcart. unfold cartItems.
  assert (H : Forall (fun e : string * Z => e.1 ∈ menuIds) (map_to_list cart)).
  { apply Forall_forall. intros [k q] Hin. apply elem_of_map_to_list in Hin.
    exact (map_Forall_lookup_1 _ _ _ _ Hcart Hin). }
  induction H as [|e l He _ IH]; [done|].
  rewrite fmap_cons. cbn [List.filter].
  change (namedAs name _) with (namedAs name (line e.1 0)).
  by rewrite (Hname _ He).
Qed.

(** X22.  The helpers of functions.js do not fit the orders that the
    portal writes.  On the lines of a cart of menu items, [calculatePrice]
    charges 10 per unit whatever the menu price, and [approveOrder] marks
    the order approved and writes the plan of the ["Users"] document back
    as it was: no menu item is named Healthy Meal or Chai. *)
Theorem X22_functions_helpers_on_portal_lines (st : Store) (oid uid : string)
    (o : Order) (ud : LegacyUser) (cart : gmap string Z) :
  map_Forall (fun id _ => id ∈ menuIds) cart ->
  Orders st !! oid = Some o ->
  Users st !! uid = Some ud ->
  Functions.calculatePriceTenths (cartItems cart) false
  = 10 * (10 * cartTotalQty cart)
  /\ Functions.approveOrder st oid uid (cartItems cart)
     = Functions.Resolved
         {| users := users st;
            Orders := <[oid := setStatusApproved None o]> (Orders st);
            Users := Users st |}.
Proof.
  intros Hcart Ho Hu. split.
  - unfold Functions.calculatePriceTenths. rewrite <- sumQty_cartItems.
    rewrite sumQty_foldr.
    rewrite (fold_left_add_acc
               (fun item => (if String.eqb (it_name item) "Healthy Meal"
                             then 40 else 10) * quantity item)).
    assert (H : List.filter (namedAs "Healthy Meal") (cartItems cart) = []).
    { apply filter_cartItems_menu; [|done].
      intros id Hid. by apply menu_names_not_legacy. }
    induction (cartItems cart) as [|it l IH]; [done|].
    cbn [List.filter] in H. unfold namedAs at 1 in H.
    destruct (String.eqb (it_name it) "Healthy Meal") eqn:E; [done|].
    cbn [foldr]. rewrite E. specialize (IH H). lia.
  - unfold Functions.approveOrder. rewrite Ho. cbn [Users]. rewrite Hu.
    rewrite fold_decrementLine.
    rewrite !filter_cartItems_menu; try done;
      try (intros id Hid; by apply menu_names_not_legacy).
    cbn [users Orders Users]. f_equal. f_equal.
    apply insert_id. rewrite Hu. destruct ud as [[m c]]. cbn.
    do 3 f_equal; unfold sumQty; cbn; lia.
Qed.

Lemma X22_functions_helpers_on_portal_lines_witness :
  let cart : gmap string Z := {[ "paneer-sandwich" := 2 ]} in
  let o := orderOf (cartItems cart) false pending 10 in
  let st := {| users := ∅; Orders := {[ "o1" := o ]};
               Users := {[ "u1" := {| legacyPlan :=
                                        {| legacyMealsRemaining := 30;
                                           legacyChaiRemaining := 12 |} |} ]} |} in
  Functions.calculatePriceTenths (cartItems cart) false
  = 10 * (10 * cartTotalQty cart)
  /\ Functions.approveOrder st "o1" "u1" (cartItems cart)
     = Functions.Resolved
         {| users := users st;
            Orders := <["o1" := setStatusApproved None o]> (Orders st);
            Users := Users st |}.
Proof.
  apply (X22_functions_helpers_on_portal_lines
           {| users := ∅;
              Orders := {[ "o1" := orderOf (cartItems {[ "paneer-sandwich" := 2 ]})
                                     false pending 10 ]};
              Users := {[ "u1" := {| legacyPlan :=
                                       {| legacyMealsRemaining := 30;
                                          legacyChaiRemaining := 12 |} |} ]} |}
           "o1" "u1"
           (orderOf (cartItems {[ "paneer-sandwich" := 2 ]}) false pending 10)
           {| legacyPlan := {| legacyMealsRemaining := 30;
                               legacyChaiRemaining := 12 |} |}
           {[ "paneer-sandwich" := 2 ]}).
  - apply map_Forall_singleton. apply (bool_decide_unpack _). vm_compute. exact I.
  - reflexivity.
  - reflexivity.
Defined.

(** X23.  [approveOrder] of functions.js, on an order and a ["Users"]
    document that exist, lowers the meal balance by the units of the lines
    named Healthy Meal and the chai balance by the units of the lines named
    Chai, of the lines it is called with: it reads neither the lines nor
    the extra flag of the stored order, and it puts no floor under the
    balances. *)
Theorem X23_functions_approveOrder_balances (st : Store) (oid uid : string)
    (o : Order) (ud : LegacyUser) (its : list Item) :
  Orders st !! oid = Some o ->
  Users st !! uid = Some ud ->
  exists st',
    Functions.approveOrder st oid uid its = Functions.Resolved st'
    /\ Orders st' !! oid = Some (setStatusApproved None o)
    /\ Users st' !! uid
       = Some {| legacyPlan :=
                   {| legacyMealsRemaining :=
                        legacyMealsRemaining (legacyPlan ud)
                        - sumQty (List.filter (namedAs "Healthy Meal") its);
                      legacyChaiRemaining :=
                        legacyChaiRemaining (legacyPlan ud)
                        - sumQty (List.filter (namedAs "Chai") its) |} |}
    /\ (legacyMealsRemaining (legacyPlan ud)
        < sumQty (List.filter (namedAs "Healthy Meal") its) ->
        exists ud', Users st' !! uid = Some ud'
                    /\ legacyMealsRemaining (legacyPlan ud') < 0).
Proof.
  intros Ho Hu. unfold Functions.approveOrder. rewrite Ho. cbn [Users].
  rewrite Hu. eexists. split; [reflexivity|]. cbn [Orders Users].
  rewrite !lookup_insert_eq, fold_decrementLine.
  split; [done|]. split; [done|]. intros Hlt. eexists. split; [done|].
  cbn [legacyPlan legacyMealsRemaining]. lia.
Qed.

Lemma X23_functions_approveOrder_balances_witness :
  let o := orderOf [line "paneer-sandwich" 1] true pending 10 in
  let ud := {| legacyPlan := {| legacyMealsRemaining := 1;
                                legacyChaiRemaining := 12 |} |} in
  let st := {| users := ∅; Orders := {[ "o1" := o ]};
               Users := {[ "u1" := ud ]} |} in
  let its := healthyMeals 2 in
  exists st',
    Functions.approveOrder st "o1" "u1" its = Functions.Resolved st'
    /\ Orders st' !! "o1" = Some (setStatusApproved None o)
    /\ Users st' !! "u1"
       = Some {| legacyPlan :=
                   {| legacyMealsRemaining :=
                        legacyMealsRemaining (legacyPlan ud)
                        - sumQty (List.filter (namedAs "Healthy Meal") its);
                      legacyChaiRemaining :=
                        legacyChaiRemaining (legacyPlan ud)
                        - sumQty (List.filter (namedAs "Chai") its) |} |}
    /\ (legacyMealsRemaining (legacyPlan ud)
        < sumQty (List.filter (namedAs "Healthy Meal") its) ->
        exists ud', Users st' !! "u1" = Some ud'
                    /\ legacyMealsRemaining (legacyPlan ud') < 0).
Proof.
  apply (X23_functions_approveOrder_balances
           {| users := ∅;
              Orders := {[ "o1" := orderOf [line "paneer-sandwich" 1] true
                                     pending 10 ]};
              Users := {[ "u1" := {| legacyPlan :=
                                       {| legacyMealsRemaining := 1;
                                          legacyChaiRemaining := 12 |} |} ]} |}
           "o1" "u1"
           (orderOf [line "paneer-sandwich" 1] true pending 10)
           {| legacyPlan := {| legacyMealsRemaining := 1;
                               legacyChaiRemaining := 12 |} |}
           (healthyMeals 2)).
  - reflexivity.
  - reflexivity.
Defined.

(** X24.  [approveOrder] of functions.js is not atomic.  When the order
    does not exist the promise rejects and nothing is written.  When the
    order exists and the ["Users"] document does not, the promise rejects
    after the order has been marked approved: the order stays approved and
    no balance is touched. *)
Theorem X24_functions_approveOrder_rejections (st : Store) (oid uid : string)
    (its : list Item) :
  Users st !! uid = None ->
  match Orders st !! oid with
  | None => Functions.approveOrder st oid uid its = Functions.Rejected st
  | Some o =>
      exists st',
        Functions.approveOrder st oid uid its = Functions.Rejected st'
        /\ Orders st' !! oid = Some (setStatusApproved None o)
        /\ status <$> (Orders st' !! oid) = Some approved
        /\ (forall oid', oid' <> oid -> Orders st' !! oid' = Orders st !! oid')
        /\ Users st' = Users st
        /\ users st' = users st
  end.
Proof.
  intros Hu. unfold Functions.approveOrder.
  destruct (Orders st !! oid) as [o|] eqn:Ho; [|done].
  cbn [Users]. rewrite Hu. eexists. split; [reflexivity|].
  cbn [Orders Users users]. rewrite lookup_insert_eq.
  repeat split; try done. intros oid' Hne. by apply lookup_insert_ne.
Qed.

Lemma X24_functions_approveOrder_rejections_witness :
  let o := orderOf (healthyMeals 2) false pending 10 in
  let st := {| users := {[ "u1" := userWith (paidPlan 0 100 30) ]};
               Orders := {[ "o1" := o ]}; Users := ∅ |} in
  exists st',
    Functions.approveOrder st "o1" "u1" (healthyMeals 2) = Functions.Rejected st'
    /\ Orders st' !! "o1" = Some (setStatusApproved None o)
    /\ status <$> (Orders st' !! "o1") = Some approved
    /\ (forall oid', oid' <> "o1" -> Orders st' !! oid' = Orders st !! oid')
    /\ Users st' = Users st
    /\ users st' = users st.
Proof.
  exact (X24_functions_approveOrder_rejections
           {| users := {[ "u1" := userWith (paidPlan 0 100 30) ]};
              Orders := {[ "o1" := orderOf (healthyMeals 2) false pending 10 ]};
              Users := ∅ |}
           "o1" "u1" (healthyMeals 2) eq_refl).
Defined.
